(** * The IBM Cloud (SoftLayer) Packer builder: [Builder.Prepare] and [Builder.Run]

    A shallow embedding of the builder of package [ibmcloud] and the
    properties of its configuration checks, of the selection of the step
    sequence and of the result [Run] hands back.

    The builder leans on the Packer plugin SDK ([config.Decode],
    [communicator.Config.Prepare], [packer.MultiError], [multistep]) and on
    Go's [time.ParseDuration].  None of these is code of the package: the
    functions of the builder take them as an environment, and the theorems
    hold for every environment. *)

From Stdlib Require Import ZArith List Ascii String DecimalString.
From Stdlib Require Import PrimFloat FloatOps SpecFloat Uint63.
From Stdlib Require Import Sorted DecimalZ DecimalPos.
From stdpp Require Import base decidable strings gmap list.

Local Open Scope string_scope.
Local Open Scope Z_scope.

(** ** Go's [error] interface

    An error is a value with an [Error() string] method.  [errors.New] and
    [fmt.Errorf] build the plain kind, which carries its text only. *)

Class GoError (E : Type) := Error : E -> string.

Record error : Type := errors_New { error_text : string }.

#[global] Instance error_GoError : GoError error := error_text.

(** [%d] of an integer. *)
Definition fmt_d (n : Z) : string := NilZero.string_of_int (Z.to_int n).

(** The byte [0x22], which a string literal cannot hold. *)
Definition dquote : string := String (ascii_of_nat 34) "".

(** The byte [0x5c]. *)
Definition backslash : string := String (ascii_of_nat 92) "".

(** The byte [0x0a]. *)
Definition newline : string := String (ascii_of_nat 10) "".

(** Unsigned 64-bit arithmetic wraps around. *)
Definition uint64 (x : Z) : Z := x mod 2 ^ 64.

(** ** Package [time] of the Go library: [Duration] and [ParseDuration]

    [Prepare] calls [time.ParseDuration] on the configured timeout.  The
    theorems take the parser from the environment; this model of the
    library function, as current Go releases have it, is the parser of the
    concrete environment the examples run in.  A duration is a signed count of
    nanoseconds (an [int64]). *)
Module time.

Definition Duration : Type := Z.

Definition Nanosecond : Duration := 1.
Definition Microsecond : Duration := 1000 * Nanosecond.
Definition Millisecond : Duration := 1000 * Microsecond.
Definition Second : Duration := 1000 * Millisecond.
Definition Minute : Duration := 60 * Second.
Definition Hour : Duration := 60 * Minute.

Definition byte (c : ascii) : Z := Z.of_N (N_of_ascii c).

Definition is_digit (c : ascii) : bool := (48 <=? byte c) && (byte c <=? 57).

Definition lowerhex (n : Z) : string :=
  String.substring (Z.to_nat n) 1 "0123456789abcdef".

(** [quote]: bytes outside printable ASCII are written [\xhh], a quote and a
    backslash are escaped. *)
Fixpoint quote_bytes (s : string) : string :=
  match s with
  | EmptyString => dquote
  | String c s' =>
      (if (128 <=? byte c) || (byte c <? 32)
       then backslash ++ "x" ++ lowerhex (byte c / 16) ++ lowerhex (byte c mod 16)
       else if (byte c =? 34) || (byte c =? 92)
            then backslash ++ String c ""
            else String c "")
      ++ quote_bytes s'
  end.

Definition quote (s : string) : string := dquote ++ quote_bytes s.

(** [leadingInt] consumes the leading digits; [None] is [errLeadingInt]. *)
Fixpoint leadingInt_from (x : Z) (s : string) : option (Z * string) :=
  match s with
  | String c s' =>
      if is_digit c then
        if 2 ^ 63 / 10 <? x then None
        else
          let x := uint64 (x * 10 + byte c - 48) in
          if 2 ^ 63 <? x then None else leadingInt_from x s'
      else Some (x, s)
  | EmptyString => Some (x, s)
  end.

Definition leadingInt (s : string) : option (Z * string) := leadingInt_from 0 s.

(** [leadingFraction] consumes the leading digits too, and stops adding
    digits (without failing) once the value would overflow. *)
Fixpoint leadingFraction_from (x : Z) (scale : float) (overflow : bool) (s : string)
  : Z * float * string :=
  match s with
  | String c s' =>
      if is_digit c then
        if overflow then leadingFraction_from x scale overflow s'
        else if (2 ^ 63 - 1) / 10 <? x then leadingFraction_from x scale true s'
        else
          let y := uint64 (x * 10 + byte c - 48) in
          if 2 ^ 63 <? y then leadingFraction_from x scale true s'
          else leadingFraction_from y (PrimFloat.mul scale 10%float) false s'
      else (x, scale, s)
  | EmptyString => (x, scale, s)
  end.

Definition leadingFraction (s : string) : Z * float * string :=
  leadingFraction_from 0 1%float false s.

(** The conversions [float64(x)] of an unsigned integer and [uint64(f)] of a
    non-negative float (truncation). *)
Definition float64 (x : Z) : float := SF2Prim (binary_normalize prec emax x 0 false).

Definition uint64_of_float (f : float) : Z :=
  match Prim2SF f with
  | S754_finite false m e =>
      if 0 <=? e then Z.shiftl (Z.pos m) e else Z.shiftr (Z.pos m) (- e)
  | _ => 0
  end.

Definition unitMap (u : string) : option Z :=
  if String.eqb u "ns" then Some Nanosecond
  else if String.eqb u "us" then Some Microsecond
  else if String.eqb u "µs" then Some Microsecond
  else if String.eqb u "μs" then Some Microsecond
  else if String.eqb u "ms" then Some Millisecond
  else if String.eqb u "s" then Some Second
  else if String.eqb u "m" then Some Minute
  else if String.eqb u "h" then Some Hour
  else None.

(** The unit of a segment: everything up to the next [.] or digit. *)
Fixpoint split_unit (s : string) : string * string :=
  match s with
  | String c s' =>
      if Ascii.eqb c "." || is_digit c then (EmptyString, s)
      else let '(u, rest) := split_unit s' in (String c u, rest)
  | EmptyString => (EmptyString, EmptyString)
  end.

Definition invalid (orig : string) : error :=
  errors_New ("time: invalid duration " ++ quote orig).

(** One round of the loop [for s != ""]: a segment of digits, an optional
    fraction and a unit, read off a string that is not empty and added to
    the nanoseconds [d] counted so far.  It returns the new count and what is
    left of the string. *)
Definition segment (orig : string) (d : Z) (s : string) : Z * string + error :=
  match s with
  | EmptyString => inr (invalid orig)
  | String c _ =>
      if negb (Ascii.eqb c "." || is_digit c) then inr (invalid orig)
      else
        let pl := String.length s in
        match leadingInt s with
        | None => inr (invalid orig)
        | Some (v, s) =>
            let pre := negb (pl =? String.length s)%nat in
            let '(f, scale, post, s) :=
              match s with
              | String c1 s1 =>
                  if Ascii.eqb c1 "." then
                    let pl := String.length s1 in
                    let '(f, scale, s2) := leadingFraction s1 in
                    (f, scale, negb (pl =? String.length s2)%nat, s2)
                  else (0, 1%float, false, s)
              | EmptyString => (0, 1%float, false, s)
              end in
            if negb pre && negb post then inr (invalid orig)
            else
              let '(u, s) := split_unit s in
              if String.eqb u "" then
                inr (errors_New ("time: missing unit in duration " ++ quote orig))
              else
                match unitMap u with
                | None =>
                    inr (errors_New ("time: unknown unit " ++ quote u
                                     ++ " in duration " ++ quote orig))
                | Some unit =>
                    if 2 ^ 63 / unit <? v then inr (invalid orig)
                    else
                      let v := uint64 (v * unit) in
                      let v :=
                        if 0 <? f then
                          uint64 (v + uint64_of_float
                                        (PrimFloat.mul (float64 f)
                                           (PrimFloat.div (float64 unit) scale)))
                        else v in
                      if (0 <? f) && (2 ^ 63 <? v) then inr (invalid orig)
                      else
                        let d := uint64 (d + v) in
                        if 2 ^ 63 <? d then inr (invalid orig)
                        else inl (d, s)
                end
        end
  end.

(** The loop, run until nothing is left of the string.  Every round consumes
    a unit, which is not empty, so the length of the string is fuel enough
    ([parse_segments_fuel] below). *)
Fixpoint parse_segments (fuel : nat) (orig : string) (d : Z) (s : string) {struct fuel}
  : Z + error :=
  match s, fuel with
  | EmptyString, _ => inl d
  | String _ _, O => inr (invalid orig)
  | String _ _, S fuel =>
      match segment orig d s with
      | inr err => inr err
      | inl (d, s) => parse_segments fuel orig d s
      end
  end.

Definition ParseDuration (s : string) : Duration * option error :=
  let orig := s in
  let '(neg, s) :=
    match s with
    | String c s' =>
        if Ascii.eqb c "-" || Ascii.eqb c "+" then (Ascii.eqb c "-", s') else (false, s)
    | EmptyString => (false, s)
    end in
  if String.eqb s "0" then (0, None)
  else if String.eqb s "" then (0, Some (invalid orig))
  else
    match parse_segments (String.length s) orig 0 s with
    | inr err => (0, Some err)
    | inl d =>
        if neg then (- d, None)
        else if 2 ^ 63 - 1 <? d then (0, Some (invalid orig))
        else (d, None)
    end.

End time.

(** ** Package [packer] of the SDK: [MultiError]

    A [MultiError] is a list of errors; it is an error itself, whose text
    counts the errors and lists them, one per line, each after an asterisk. *)
Module packer.
Section MultiError.
Context {E : Type} `{GoError E}.

Record MultiError : Type := { Errors : list E }.

(** [MultiErrorAppend(err, errs...)]: a nil [err] ([None]) starts a new,
    empty [MultiError]. *)
Definition MultiErrorAppend (err : option MultiError) (errs : list E) : MultiError :=
  let err := match err with Some err => err | None => {| Errors := [] |} end in
  {| Errors := Errors err ++ errs |}.

(** [strings.Join] *)
Fixpoint Join (elems : list string) (sep : string) : string :=
  match elems with
  | [] => ""
  | [a] => a
  | a :: rest => a +:+ sep +:+ Join rest sep
  end.

Definition MultiError_Error (e : MultiError) : string :=
  let points := map (fun err => "* " +:+ Error err) (Errors e) in
  fmt_d (Z.of_nat (length (Errors e))) +:+ " error(s) occurred:" +:+ newline +:+ newline
    +:+ Join points newline.

End MultiError.
Arguments MultiError E : clear implicits.
End packer.

(** ** Package [communicator] of the SDK: the communicator settings

    Of the SDK's [communicator.Config] the builder reads and writes these
    fields; the others only matter to the SDK's own [Prepare]. *)
Module communicator.

Record Config : Type := {
  CommType : string;          (* Type, the setting "communicator" *)
  SSHUsername : string;
  SSHPrivateKey : string;     (* []byte *)
  WinRMUser : string;
}.

Definition set_CommType (v : string) (c : Config) : Config :=
  {| CommType := v; SSHUsername := SSHUsername c;
     SSHPrivateKey := SSHPrivateKey c; WinRMUser := WinRMUser c |}.

Definition set_SSHUsername (v : string) (c : Config) : Config :=
  {| CommType := CommType c; SSHUsername := v;
     SSHPrivateKey := SSHPrivateKey c; WinRMUser := WinRMUser c |}.

Definition set_WinRMUser (v : string) (c : Config) : Config :=
  {| CommType := CommType c; SSHUsername := SSHUsername c;
     SSHPrivateKey := SSHPrivateKey c; WinRMUser := v |}.

(** The SDK's [Prepare] of these settings, as far as the fields above go: an
    empty type stands for [ssh]; [ssh] and [winrm] want a user name;
    [docker], [dockerWindowsContainer] and [none] have nothing to check; any
    other type is an error.  The theorems take the communicator's [Prepare]
    from the environment; this one is the communicator of the concrete
    environment the examples run in. *)
Definition Prepare (c : Config) : Config * list error :=
  let c := if String.eqb (CommType c) "" then set_CommType "ssh" c else c in
  if String.eqb (CommType c) "ssh" then
    (c, if String.eqb (SSHUsername c) "" then
          [errors_New ("An ssh_username must be specified" +:+ newline
                       +:+ "  Note: some builders used to default ssh_username to "
                       +:+ dquote +:+ "root" +:+ dquote +:+ ".")]
        else [])
  else if String.eqb (CommType c) "winrm" then
    (c, if String.eqb (WinRMUser c) "" then [errors_New "winrm_username must be specified."]
        else [])
  else if String.eqb (CommType c) "docker"
          || String.eqb (CommType c) "dockerWindowsContainer"
          || String.eqb (CommType c) "none" then (c, [])
  else (c, [errors_New ("Communicator type " +:+ CommType c +:+ " is invalid")]).

End communicator.

(** ** Package [multistep] of the SDK: the state bag and the step runner *)
Module multistep.

Inductive StepAction : Type := ActionContinue | ActionHalt.

(** [context.Context], of which the runner only asks whether it is done when
    the step at a given position is about to start. *)
Record Context : Type := { done_before : nat -> bool }.

Definition Background : Context := {| done_before := fun _ => false |}.

Section Runner.
(** [V] is what a bag holds ([interface{}]), [Step] the steps. *)
Context {V Step : Type}.

Record BasicRunner : Type := { Steps : list Step }.

(** [BasicStateBag]: a map from keys to values. *)
Definition Put (k : string) (v : V) (state : gmap string V) : gmap string V :=
  <[k := v]> state.

Definition GetOk (k : string) (state : gmap string V) : option V := state !! k.

(** What a step does when it runs and when it cleans up. *)
Variable step_Run : Step -> gmap string V -> StepAction * gmap string V.
Variable step_Cleanup : Step -> gmap string V -> gmap string V.

(** Modelled from the spec: the step Runner ([multistep.BasicRunner] of the
    SDK, which is not under src/), section 4.2.  It keeps the steps already
    run; before each step it stops if cancellation was raised, otherwise it
    records the step and runs it; it stops on a halt.  [ran] holds the steps
    run, the last one first. *)
Fixpoint advance (ctx : Context) (i : nat) (steps ran : list Step) (state : gmap string V)
  : list Step * gmap string V :=
  match steps with
  | [] => (ran, state)
  | step :: rest =>
      if done_before ctx i then (ran, state)
      else
        let '(action, state) := step_Run step state in
        match action with
        | ActionContinue => advance ctx (S i) rest (step :: ran) state
        | ActionHalt => (step :: ran, state)
        end
  end.

(** Modelled from the spec: after the sequence ends, however it ends, the
    Runner cleans up every step that ran, in reverse order. *)
Definition BasicRunner_Run (b : BasicRunner) (ctx : Context) (state : gmap string V)
  : gmap string V :=
  let '(ran, state) := advance ctx 0 (Steps b) [] state in
  fold_left (fun state step => step_Cleanup step state) ran state.

End Runner.
Arguments BasicRunner Step : clear implicits.
End multistep.

(** * Package [ibmcloud]: the builder *)

Definition BuilderId : string := "packer.ibmcloud".

(** The configuration of a build.  The fields the SDK embeds ([PackerConfig],
    [KeyValueFilter], the interpolation context) are used by the SDK alone
    and are left out.  Go's [int] and [int64] fields are integers; the
    builder only compares them with zero. *)
Record Config : Type := {
  Comm : communicator.Config;
  Username : string;
  APIKey : string;
  ImageName : string;
  ImageDescription : string;
  ImageType : string;
  BaseImageId : string;
  BaseOsCode : string;
  UploadToDatacenters : list string;
  InstanceName : string;
  InstanceDomain : string;
  InstanceFlavor : string;
  InstanceLocalDiskFlag : bool;
  InstanceCpu : Z;   (* int *)
  InstanceMemory : Z;   (* int64 *)
  InstanceDiskCapacity : Z;   (* int *)
  DatacenterName : string;
  PublicVlanId : Z;   (* int64 *)
  InstanceNetworkSpeed : Z;   (* int *)
  ProvisioningSshKeyId : Z;   (* int64 *)
  InstancePublicSecurityGroupIds : list Z;   (* []int64 *)
  RawStateTimeout : string;
  StateTimeout : time.Duration;
}.

Definition set_Comm (v : communicator.Config) (c : Config) : Config :=
  {| Comm := v; Username := Username c; APIKey := APIKey c; ImageName := ImageName c;
     ImageDescription := ImageDescription c; ImageType := ImageType c;
     BaseImageId := BaseImageId c; BaseOsCode := BaseOsCode c;
     UploadToDatacenters := UploadToDatacenters c; InstanceName := InstanceName c;
     InstanceDomain := InstanceDomain c; InstanceFlavor := InstanceFlavor c;
     InstanceLocalDiskFlag := InstanceLocalDiskFlag c; InstanceCpu := InstanceCpu c;
     InstanceMemory := InstanceMemory c; InstanceDiskCapacity := InstanceDiskCapacity c;
     DatacenterName := DatacenterName c; PublicVlanId := PublicVlanId c;
     InstanceNetworkSpeed := InstanceNetworkSpeed c;
     ProvisioningSshKeyId := ProvisioningSshKeyId c;
     InstancePublicSecurityGroupIds := InstancePublicSecurityGroupIds c;
     RawStateTimeout := RawStateTimeout c; StateTimeout := StateTimeout c |}.

Definition set_ImageDescription (v : string) (c : Config) : Config :=
  {| Comm := Comm c; Username := Username c; APIKey := APIKey c;
     ImageName := ImageName c; ImageDescription := v; ImageType := ImageType c;
     BaseImageId := BaseImageId c; BaseOsCode := BaseOsCode c;
     UploadToDatacenters := UploadToDatacenters c; InstanceName := InstanceName c;
     InstanceDomain := InstanceDomain c; InstanceFlavor := InstanceFlavor c;
     InstanceLocalDiskFlag := InstanceLocalDiskFlag c; InstanceCpu := InstanceCpu c;
     InstanceMemory := InstanceMemory c; InstanceDiskCapacity := InstanceDiskCapacity c;
     DatacenterName := DatacenterName c; PublicVlanId := PublicVlanId c;
     InstanceNetworkSpeed := InstanceNetworkSpeed c;
     ProvisioningSshKeyId := ProvisioningSshKeyId c;
     InstancePublicSecurityGroupIds := InstancePublicSecurityGroupIds c;
     RawStateTimeout := RawStateTimeout c; StateTimeout := StateTimeout c |}.

Definition set_ImageType (v : string) (c : Config) : Config :=
  {| Comm := Comm c; Username := Username c; APIKey := APIKey c;
     ImageName := ImageName c; ImageDescription := ImageDescription c; ImageType := v;
     BaseImageId := BaseImageId c; BaseOsCode := BaseOsCode c;
     UploadToDatacenters := UploadToDatacenters c; InstanceName := InstanceName c;
     InstanceDomain := InstanceDomain c; InstanceFlavor := InstanceFlavor c;
     InstanceLocalDiskFlag := InstanceLocalDiskFlag c; InstanceCpu := InstanceCpu c;
     InstanceMemory := InstanceMemory c; InstanceDiskCapacity := InstanceDiskCapacity c;
     DatacenterName := DatacenterName c; PublicVlanId := PublicVlanId c;
     InstanceNetworkSpeed := InstanceNetworkSpeed c;
     ProvisioningSshKeyId := ProvisioningSshKeyId c;
     InstancePublicSecurityGroupIds := InstancePublicSecurityGroupIds c;
     RawStateTimeout := RawStateTimeout c; StateTimeout := StateTimeout c |}.

Definition set_InstanceName (v : string) (c : Config) : Config :=
  {| Comm := Comm c; Username := Username c; APIKey := APIKey c;
     ImageName := ImageName c; ImageDescription := ImageDescription c;
     ImageType := ImageType c; BaseImageId := BaseImageId c; BaseOsCode := BaseOsCode c;
     UploadToDatacenters := UploadToDatacenters c; InstanceName := v;
     InstanceDomain := InstanceDomain c; InstanceFlavor := InstanceFlavor c;
     InstanceLocalDiskFlag := InstanceLocalDiskFlag c; InstanceCpu := InstanceCpu c;
     InstanceMemory := InstanceMemory c; InstanceDiskCapacity := InstanceDiskCapacity c;
     DatacenterName := DatacenterName c; PublicVlanId := PublicVlanId c;
     InstanceNetworkSpeed := InstanceNetworkSpeed c;
     ProvisioningSshKeyId := ProvisioningSshKeyId c;
     InstancePublicSecurityGroupIds := InstancePublicSecurityGroupIds c;
     RawStateTimeout := RawStateTimeout c; StateTimeout := StateTimeout c |}.

Definition set_InstanceDomain (v : string) (c : Config) : Config :=
  {| Comm := Comm c; Username := Username c; APIKey := APIKey c;
     ImageName := ImageName c; ImageDescription := ImageDescription c;
     ImageType := ImageType c; BaseImageId := BaseImageId c; BaseOsCode := BaseOsCode c;
     UploadToDatacenters := UploadToDatacenters c; InstanceName := InstanceName c;
     InstanceDomain := v; InstanceFlavor := InstanceFlavor c;
     InstanceLocalDiskFlag := InstanceLocalDiskFlag c; InstanceCpu := InstanceCpu c;
     InstanceMemory := InstanceMemory c; InstanceDiskCapacity := InstanceDiskCapacity c;
     DatacenterName := DatacenterName c; PublicVlanId := PublicVlanId c;
     InstanceNetworkSpeed := InstanceNetworkSpeed c;
     ProvisioningSshKeyId := ProvisioningSshKeyId c;
     InstancePublicSecurityGroupIds := InstancePublicSecurityGroupIds c;
     RawStateTimeout := RawStateTimeout c; StateTimeout := StateTimeout c |}.

Definition set_DatacenterName (v : string) (c : Config) : Config :=
  {| Comm := Comm c; Username := Username c; APIKey := APIKey c;
     ImageName := ImageName c; ImageDescription := ImageDescription c;
     ImageType := ImageType c; BaseImageId := BaseImageId c; BaseOsCode := BaseOsCode c;
     UploadToDatacenters := UploadToDatacenters c; InstanceName := InstanceName c;
     InstanceDomain := InstanceDomain c; InstanceFlavor := InstanceFlavor c;
     InstanceLocalDiskFlag := InstanceLocalDiskFlag c; InstanceCpu := InstanceCpu c;
     InstanceMemory := InstanceMemory c; InstanceDiskCapacity := InstanceDiskCapacity c;
     DatacenterName := v; PublicVlanId := PublicVlanId c;
     InstanceNetworkSpeed := InstanceNetworkSpeed c;
     ProvisioningSshKeyId := ProvisioningSshKeyId c;
     InstancePublicSecurityGroupIds := InstancePublicSecurityGroupIds c;
     RawStateTimeout := RawStateTimeout c; StateTimeout := StateTimeout c |}.

Definition set_InstanceNetworkSpeed (v : Z) (c : Config) : Config :=
  {| Comm := Comm c; Username := Username c; APIKey := APIKey c;
     ImageName := ImageName c; ImageDescription := ImageDescription c;
     ImageType := ImageType c; BaseImageId := BaseImageId c; BaseOsCode := BaseOsCode c;
     UploadToDatacenters := UploadToDatacenters c; InstanceName := InstanceName c;
     InstanceDomain := InstanceDomain c; InstanceFlavor := InstanceFlavor c;
     InstanceLocalDiskFlag := InstanceLocalDiskFlag c; InstanceCpu := InstanceCpu c;
     InstanceMemory := InstanceMemory c; InstanceDiskCapacity := InstanceDiskCapacity c;
     DatacenterName := DatacenterName c; PublicVlanId := PublicVlanId c;
     InstanceNetworkSpeed := v; ProvisioningSshKeyId := ProvisioningSshKeyId c;
     InstancePublicSecurityGroupIds := InstancePublicSecurityGroupIds c;
     RawStateTimeout := RawStateTimeout c; StateTimeout := StateTimeout c |}.

Definition set_RawStateTimeout (v : string) (c : Config) : Config :=
  {| Comm := Comm c; Username := Username c; APIKey := APIKey c;
     ImageName := ImageName c; ImageDescription := ImageDescription c;
     ImageType := ImageType c; BaseImageId := BaseImageId c; BaseOsCode := BaseOsCode c;
     UploadToDatacenters := UploadToDatacenters c; InstanceName := InstanceName c;
     InstanceDomain := InstanceDomain c; InstanceFlavor := InstanceFlavor c;
     InstanceLocalDiskFlag := InstanceLocalDiskFlag c; InstanceCpu := InstanceCpu c;
     InstanceMemory := InstanceMemory c; InstanceDiskCapacity := InstanceDiskCapacity c;
     DatacenterName := DatacenterName c; PublicVlanId := PublicVlanId c;
     InstanceNetworkSpeed := InstanceNetworkSpeed c;
     ProvisioningSshKeyId := ProvisioningSshKeyId c;
     InstancePublicSecurityGroupIds := InstancePublicSecurityGroupIds c;
     RawStateTimeout := v; StateTimeout := StateTimeout c |}.

Definition set_StateTimeout (v : time.Duration) (c : Config) : Config :=
  {| Comm := Comm c; Username := Username c; APIKey := APIKey c;
     ImageName := ImageName c; ImageDescription := ImageDescription c;
     ImageType := ImageType c; BaseImageId := BaseImageId c; BaseOsCode := BaseOsCode c;
     UploadToDatacenters := UploadToDatacenters c; InstanceName := InstanceName c;
     InstanceDomain := InstanceDomain c; InstanceFlavor := InstanceFlavor c;
     InstanceLocalDiskFlag := InstanceLocalDiskFlag c; InstanceCpu := InstanceCpu c;
     InstanceMemory := InstanceMemory c; InstanceDiskCapacity := InstanceDiskCapacity c;
     DatacenterName := DatacenterName c; PublicVlanId := PublicVlanId c;
     InstanceNetworkSpeed := InstanceNetworkSpeed c;
     ProvisioningSshKeyId := ProvisioningSshKeyId c;
     InstancePublicSecurityGroupIds := InstancePublicSecurityGroupIds c;
     RawStateTimeout := RawStateTimeout c; StateTimeout := v |}.

(** Image types; [flex] is not supported. *)
Definition IMAGE_TYPE_STANDARD : string := "standard".

(** ** The errors [Prepare] collects

    One constructor for every place where [Prepare] appends to its
    [MultiError]; the instance gives each its text. *)
Inductive PrepareError : Type :=
| ErrCommunicator (err : error)        (* reported by [Comm.Prepare] *)
| ErrFlavorWithSizing
| ErrFlavorRequired
| ErrAPIKey
| ErrUsername
| ErrImageName
| ErrImageType (image_type : string)
| ErrBaseImageRequired
| ErrBaseImageOnlyOne
| ErrStateTimeout (err : error).

#[global] Instance PrepareError_GoError : GoError PrepareError := fun e =>
  match e with
  | ErrCommunicator err => Error err
  | ErrFlavorWithSizing =>
      "instance_flavor must be specified without instance_cpu, instance_memory, and instance_disk_capacity"
  | ErrFlavorRequired => "instance_flavor must be specified"
  | ErrAPIKey => "api_key or the SOFTLAYER_API_KEY environment variable must be specified"
  | ErrUsername => "username or the SOFTLAYER_USER_NAME environment variable must be specified"
  | ErrImageName => "image_name must be specified"
  | ErrImageType image_type => "Unknown image_type '" +:+ image_type +:+ "'. Must be 'standard'."
  | ErrBaseImageRequired => "please specify base_image_id or base_os_code"
  | ErrBaseImageOnlyOne => "please specify only one of base_image_id or base_os_code"
  | ErrStateTimeout err => "Failed parsing state_timeout: " +:+ Error err
  end.

(** ** The steps of a build

    The steps of the package and the two steps of the SDK a build uses, with
    the settings a step is constructed with.  [HostFn] and [CommConfigFn] name
    the functions of the package that [StepConnect] is parametrized by. *)
Inductive HostFn : Type := winRMCommHost | sshCommHost.
Inductive CommConfigFn : Type := winRMConfig | sshConfig.

Inductive Step : Type :=
| stepCreateSshKey (PrivateKeyFile : string)
| stepCreateInstance
| stepWaitforInstance
| stepGrabPublicIP
| StepConnect (Config : communicator.Config) (Host : HostFn)
              (SSHConfig WinRMConfig : option CommConfigFn)
| StepProvision
| stepCaptureImage.

#[global] Instance HostFn_eq_dec : EqDecision HostFn.
Proof. solve_decision. Defined.
#[global] Instance CommConfigFn_eq_dec : EqDecision CommConfigFn.
Proof. solve_decision. Defined.
#[global] Instance communicator_Config_eq_dec : EqDecision communicator.Config.
Proof. solve_decision. Defined.
#[global] Instance Step_eq_dec : EqDecision Step.
Proof. solve_decision. Defined.

(** The name of a step, without its settings. *)
Inductive StepName : Type :=
| CreateSshKey | CreateInstance | WaitforInstance | GrabPublicIP
| Connect | Provision | CaptureImage.

Definition step_name (s : Step) : StepName :=
  match s with
  | stepCreateSshKey _ => CreateSshKey
  | stepCreateInstance => CreateInstance
  | stepWaitforInstance => WaitforInstance
  | stepGrabPublicIP => GrabPublicIP
  | StepConnect _ _ _ _ => Connect
  | StepProvision => Provision
  | stepCaptureImage => CaptureImage
  end.

(** Builder represents a Packer Builder. *)
Record Builder : Type := {
  config : Config;
  runner : option (multistep.BasicRunner Step);   (* nil until [Run] *)
}.

(** ** What the builder takes from outside the package

    - [config_Decode]: [config.Decode] into the builder's configuration,
      from the raw templates; it returns what it left in the configuration
      and its error;
    - [Comm_Prepare]: [communicator.Config.Prepare], which may amend the
      communicator settings and returns the errors it found;
    - [time_ParseDuration]: [time.ParseDuration];
    - [time_Now_Unix]: [time.Now().Unix()], the clock when [Prepare] runs. *)
Record Env : Type := {
  Raw : Type;
  config_Decode : Config -> list Raw -> Config * option error;
  Comm_Prepare : communicator.Config -> communicator.Config * list error;
  time_ParseDuration : string -> time.Duration * option error;
  time_Now_Unix : Z;
}.

(** What [Prepare] returns. *)
Record PrepareResult : Type := {
  parms : list string;
  param2 : list string;
  retErr : option error;
}.

(** ** [Prepare], first part: assign default values if possible.

    The name of the instance is printed with the verb [%s] applied to an
    [int64], which [fmt] renders as a bad-verb notice. *)
Definition assignDefaults (E : Env) (c : Config) : Config :=
  let c := if String.eqb (DatacenterName c) "" then set_DatacenterName "ams01" c else c in
  let c :=
    if String.eqb (InstanceName c) "" then
      set_InstanceName ("packer-ibmcloud-%!s(int64=" +:+ fmt_d (time_Now_Unix E) +:+ ")") c
    else c in
  let c :=
    if String.eqb (InstanceDomain c) "" then set_InstanceDomain "defaultdomain.com" c else c in
  let c :=
    if String.eqb (ImageDescription c) "" then
      set_ImageDescription "Instance snapshot. Generated by packer.io" c
    else c in
  let c := if String.eqb (ImageType c) "" then set_ImageType IMAGE_TYPE_STANDARD c else c in
  let c := if InstanceNetworkSpeed c =? 0 then set_InstanceNetworkSpeed 10 c else c in
  let c := if String.eqb (RawStateTimeout c) "" then set_RawStateTimeout "10m" c else c in
  if String.eqb (communicator.CommType (Comm c)) "winrm" then
    if String.eqb (communicator.WinRMUser (Comm c)) "" then
      set_Comm (communicator.set_WinRMUser "Administrator" (Comm c)) c
    else c
  else if String.eqb (communicator.CommType (Comm c)) "ssh" then
    if String.eqb (communicator.SSHUsername (Comm c)) "" then
      set_Comm (communicator.set_SSHUsername "root" (Comm c)) c
    else c
  else c.

(** ** [Prepare], second part: check for required configurations that will
    display errors if not set.  Returns the configuration, with the
    communicator as its [Prepare] left it and [StateTimeout] set, and the
    errors collected. *)
Definition checkConfig (E : Env) (c : Config) : Config * packer.MultiError PrepareError :=
  let byFlavor := true in
  let errs : option (packer.MultiError PrepareError) := None in
  let '(comm, commErrs) := Comm_Prepare E (Comm c) in
  let c := set_Comm comm c in
  let errs := packer.MultiErrorAppend errs (map ErrCommunicator commErrs) in
  let byFlavor := if 0 <? InstanceCpu c then false else byFlavor in
  let byFlavor := if 0 <? InstanceMemory c then false else byFlavor in
  let byFlavor := if 0 <? InstanceDiskCapacity c then false else byFlavor in
  let errs :=
    if negb byFlavor && negb (String.eqb (InstanceFlavor c) "") then
      packer.MultiErrorAppend (Some errs) [ErrFlavorWithSizing]
    else if byFlavor && String.eqb (InstanceFlavor c) "" then
      packer.MultiErrorAppend (Some errs) [ErrFlavorRequired]
    else errs in
  let errs :=
    if String.eqb (APIKey c) "" then packer.MultiErrorAppend (Some errs) [ErrAPIKey]
    else errs in
  let errs :=
    if String.eqb (Username c) "" then packer.MultiErrorAppend (Some errs) [ErrUsername]
    else errs in
  let errs :=
    if String.eqb (ImageName c) "" then packer.MultiErrorAppend (Some errs) [ErrImageName]
    else errs in
  let errs :=
    if negb (String.eqb (ImageType c) IMAGE_TYPE_STANDARD) then
      packer.MultiErrorAppend (Some errs) [ErrImageType (ImageType c)]
    else errs in
  let errs :=
    if String.eqb (BaseImageId c) "" && String.eqb (BaseOsCode c) "" then
      packer.MultiErrorAppend (Some errs) [ErrBaseImageRequired]
    else errs in
  let errs :=
    if negb (String.eqb (BaseImageId c) "") && negb (String.eqb (BaseOsCode c) "") then
      packer.MultiErrorAppend (Some errs) [ErrBaseImageOnlyOne]
    else errs in
  let '(stateTimeout, err) := time_ParseDuration E (RawStateTimeout c) in
  let errs :=
    match err with
    | Some err => packer.MultiErrorAppend (Some errs) [ErrStateTimeout err]
    | None => errs
    end in
  let c := set_StateTimeout stateTimeout c in
  (c, errs).

(** ** [Prepare] processes the build configuration parameters. *)
Definition Prepare (E : Env) (self : Builder) (raws : list (Raw E)) : Builder * PrepareResult :=
  let '(c, err) := config_Decode E (config self) raws in
  match err with
  | Some err =>
      ({| config := c; runner := runner self |},
       {| parms := []; param2 := []; retErr := Some err |})
  | None =>
      let '(c, errs) := checkConfig E (assignDefaults E c) in
      let retErr :=
        if (0 <? length (packer.Errors errs))%nat
        then Some (errors_New (packer.MultiError_Error errs))
        else None in
      ({| config := c; runner := runner self |},
       {| parms := []; param2 := []; retErr := retErr |})
  end.

(** ** [Run] *)

(** The sinks [Run] is handed ([packer.Ui], [packer.Hook]) are opaque to it. *)
Record Ui : Type := { ui_id : nat }.
Record Hook : Type := { hook_id : nat }.

(** Modelled from the spec: the Provider Client handle ([SoftlayerClient],
    declared outside src/).  It is built from the two credentials, which do
    not change after construction. *)
Record SoftlayerClient : Type := { client_user : string; client_apiKey : string }.

Definition SoftlayerClient_New (user key : string) : SoftlayerClient :=
  {| client_user := user; client_apiKey := key |}.

(** The [Artifact] of the package (declared in another file of it), with
    the fields the literal in [Run] fills in. *)
Record Artifact : Type := {
  imageName : string;
  imageId : string;
  datacenterName : string;
  client : SoftlayerClient;
}.

(** What the state bag holds ([interface{}]): the four values [Run] puts and
    what the steps may put. *)
Inductive Value : Type :=
| VConfig (c : Config)
| VClient (c : SoftlayerClient)
| VHook (h : Hook)
| VUi (u : Ui)
| VError (err : error)
| VString (s : string)
| VInt (n : Z)
| VBool (b : bool)
| VNil.

(** How a call of [Run] ends: it returns its two results, or a type
    assertion on a value of the bag panics. *)
Inductive RunResult : Type :=
| Return (artifact : option Artifact) (err : option error)
| Panic (assertion : string).

(** A call of [Run]: the builder afterwards, the lines logged, the result. *)
Record RunOutcome : Type := {
  self_after : Builder;
  logged : list string;
  result : RunResult;
}.

(** The state bag [Run] sets up to share state between the steps. *)
Definition initialState (self : Builder) (ui : Ui) (hook : Hook) : gmap string Value :=
  let client := SoftlayerClient_New (Username (config self)) (APIKey (config self)) in
  let state : gmap string Value := ∅ in
  let state := multistep.Put "config" (VConfig (config self)) state in
  let state := multistep.Put "client" (VClient client) state in
  let state := multistep.Put "hook" (VHook hook) state in
  let state := multistep.Put "ui" (VUi ui) state in
  state.

(** Build the steps. *)
Definition buildSteps (self : Builder) : list Step :=
  let steps : list Step := [] in
  if String.eqb (communicator.CommType (Comm (config self))) "winrm" then
    [ stepCreateInstance;
      stepWaitforInstance;
      stepGrabPublicIP;
      StepConnect (Comm (config self)) winRMCommHost None (Some winRMConfig);
      stepWaitforInstance;
      StepProvision;
      stepCaptureImage ]
  else if String.eqb (communicator.CommType (Comm (config self))) "ssh" then
    [ stepCreateSshKey (communicator.SSHPrivateKey (Comm (config self)));
      stepCreateInstance;
      stepWaitforInstance;
      stepGrabPublicIP;
      StepConnect (Comm (config self)) sshCommHost (Some sshConfig) None;
      StepProvision;
      stepCaptureImage ]
  else steps.

(** [Run] executes a SoftLayer Packer build and returns a [packer.Artifact]
    representing a SoftLayer machine image (standard).  [runner_Run] is the
    [Run] method of the runner of the SDK. *)
Definition Run
    (runner_Run : multistep.BasicRunner Step -> multistep.Context ->
                  gmap string Value -> gmap string Value)
    (self : Builder) (ctx : multistep.Context) (ui : Ui) (hook : Hook) : RunOutcome :=
  let client := SoftlayerClient_New (Username (config self)) (APIKey (config self)) in
  let state := initialState self ui hook in
  let steps := buildSteps self in
  (* Create the runner which will run the steps we just build *)
  let self := {| config := config self; runner := Some {| multistep.Steps := steps |} |} in
  let state := runner_Run {| multistep.Steps := steps |} ctx state in
  (* If there was an error, return that *)
  match multistep.GetOk "error" state with
  | Some rawErr =>
      match rawErr with
      | VError err => {| self_after := self; logged := []; result := Return None (Some err) |}
      | _ => {| self_after := self; logged := []; result := Panic "rawErr.(error)" |}
      end
  | None =>
      match multistep.GetOk "image_id" state with
      | None =>
          {| self_after := self;
             logged := ["Failed to find image_id in state. Bug?"];
             result := Return None None |}
      | Some image_id =>
          match image_id with
          | VString image_id =>
              (* Create an artifact and return it *)
              let artifact :=
                {| imageName := ImageName (config self);
                   imageId := image_id;
                   datacenterName := DatacenterName (config self);
                   client := client |} in
              {| self_after := self; logged := []; result := Return (Some artifact) None |}
          | _ =>
              {| self_after := self; logged := [];
                 result := Panic "state.Get(image_id).(string)" |}
          end
      end
  end.

(** ** What the properties are stated with *)

(** The errors [Prepare] has collected when it reaches its last test, for
    the configuration [c] that [config.Decode] produced. *)
Definition collected (E : Env) (c : Config) : list PrepareError :=
  packer.Errors (snd (checkConfig E (assignDefaults E c))).

(** The timeout string [Prepare] parses: the configured one, or the default. *)
Definition timeoutString (c : Config) : string :=
  if String.eqb (RawStateTimeout c) "" then "10m" else RawStateTimeout c.

(** The image type [Prepare] checks: the configured one, or the default. *)
Definition imageTypeOf (c : Config) : string :=
  if String.eqb (ImageType c) "" then IMAGE_TYPE_STANDARD else ImageType c.

(** Whether one of the explicit sizing values counts as set. *)
Definition explicitSizing (c : Config) : bool :=
  (0 <? InstanceCpu c) || (0 <? InstanceMemory c) || (0 <? InstanceDiskCapacity c).

(** The errors of [Prepare]'s own checks, as opposed to the communicator's. *)
Definition ownError (e : PrepareError) : bool :=
  match e with
  | ErrCommunicator _ => false
  | _ => true
  end.

(** The error [x] when [b] holds, nothing otherwise. *)
Definition when {A : Type} (b : bool) (x : A) : list A := if b then [x] else [].

(** The state bag when the runner is done. *)
Definition finalState
    (runner_Run : multistep.BasicRunner Step -> multistep.Context ->
                  gmap string Value -> gmap string Value)
    (self : Builder) (ctx : multistep.Context) (ui : Ui) (hook : Hook) : gmap string Value :=
  runner_Run {| multistep.Steps := buildSteps self |} ctx (initialState self ui hook).

(** A call of [Run] fails in the eyes of its caller when it returns an
    error or panics. *)
Definition failsLoudly (r : RunResult) : bool :=
  match r with
  | Return _ (Some _) => true
  | Return _ None => false
  | Panic _ => true
  end.

(** [sub] occurs in [s]. *)
Definition occursIn (sub s : string) : Prop :=
  exists before after : string, s = before +:+ sub +:+ after.

(** The environment [E] with a parser that reports the same errors and
    returns the duration [d s] for the string [s]. *)
Definition withDurations (d : string -> time.Duration) (E : Env) : Env :=
  {| Raw := Raw E;
     config_Decode := config_Decode E;
     Comm_Prepare := Comm_Prepare E;
     time_ParseDuration := fun s => (d s, snd (time_ParseDuration E s));
     time_Now_Unix := time_Now_Unix E |}.

(** ** A concrete environment and concrete builds, for the examples *)

(** The templates come decoded (the last one wins); the communicator and
    the parser are the models of the SDK's and of the library's. *)
Definition exampleEnv : Env :=
  {| Raw := Config;
     config_Decode := fun c raws => (List.last raws c, None);
     Comm_Prepare := communicator.Prepare;
     time_ParseDuration := time.ParseDuration;
     time_Now_Unix := 1700000000 |}.

Definition exampleComm (type : string) : communicator.Config :=
  {| communicator.CommType := type;
     communicator.SSHUsername := "";
     communicator.SSHPrivateKey := "";
     communicator.WinRMUser := "" |}.

(** A template with a flavor, an operating system code and nothing wrong,
    for a communicator type, explicit sizing values and a timeout. *)
Definition exampleConfig (type : string) (cpu memory disk : Z) (timeout : string) : Config :=
  {| Comm := exampleComm type;
     Username := "user"; APIKey := "key"; ImageName := "my-image";
     ImageDescription := ""; ImageType := "";
     BaseImageId := ""; BaseOsCode := "UBUNTU_LATEST";
     UploadToDatacenters := [];
     InstanceName := ""; InstanceDomain := ""; InstanceFlavor := "B1_2X8X100";
     InstanceLocalDiskFlag := false;
     InstanceCpu := cpu; InstanceMemory := memory; InstanceDiskCapacity := disk;
     DatacenterName := ""; PublicVlanId := 0; InstanceNetworkSpeed := 0;
     ProvisioningSshKeyId := 0; InstancePublicSecurityGroupIds := [];
     RawStateTimeout := timeout; StateTimeout := 0 |}.

(** A template with nothing set. *)
Definition emptyConfig : Config :=
  {| Comm := exampleComm "";
     Username := ""; APIKey := ""; ImageName := "";
     ImageDescription := ""; ImageType := "";
     BaseImageId := ""; BaseOsCode := "";
     UploadToDatacenters := [];
     InstanceName := ""; InstanceDomain := ""; InstanceFlavor := "";
     InstanceLocalDiskFlag := false;
     InstanceCpu := 0; InstanceMemory := 0; InstanceDiskCapacity := 0;
     DatacenterName := ""; PublicVlanId := 0; InstanceNetworkSpeed := 0;
     ProvisioningSshKeyId := 0; InstancePublicSecurityGroupIds := [];
     RawStateTimeout := ""; StateTimeout := 0 |}.

Definition newBuilder : Builder := {| config := emptyConfig; runner := None |}.

(** The builder after [Prepare] on one template. *)
Definition preparedBuilder (c : Config) : Builder := fst (Prepare exampleEnv newBuilder [c]).

(** Modelled from the spec: the steps of the package (declared outside
    src/) against a fake provider, sections 4.3 to 4.7 and 8.  Creating the
    instance writes [instance_id]; when the provider refuses, it writes
    [error] and halts.  The address lookup writes [public_ip], the capture
    writes [image_id].  The other steps write nothing the builder reads.
    Cleanup leaves the keys the builder reads alone. *)
Definition fake_step_Run (providerRefuses : bool) (step : Step) (state : gmap string Value)
  : multistep.StepAction * gmap string Value :=
  match step with
  | stepCreateInstance =>
      if providerRefuses then
        (multistep.ActionHalt,
         multistep.Put "error" (VError (errors_New "provider: cannot create the instance")) state)
      else (multistep.ActionContinue, multistep.Put "instance_id" (VInt 4711) state)
  | stepGrabPublicIP =>
      (multistep.ActionContinue, multistep.Put "public_ip" (VString "198.51.100.7") state)
  | stepCaptureImage =>
      (multistep.ActionContinue, multistep.Put "image_id" (VString "1234567") state)
  | _ => (multistep.ActionContinue, state)
  end.

Definition fake_step_Cleanup (step : Step) (state : gmap string Value) : gmap string Value :=
  state.

Definition fakeRunner (providerRefuses : bool)
  : multistep.BasicRunner Step -> multistep.Context -> gmap string Value -> gmap string Value :=
  multistep.BasicRunner_Run (fake_step_Run providerRefuses) fake_step_Cleanup.

(** A context that is done before the first step starts. *)
Definition cancelledContext : multistep.Context := {| multistep.done_before := fun _ => true |}.

Definition exampleUi : Ui := {| ui_id := 1 |}.
Definition exampleHook : Hook := {| hook_id := 1 |}.


(** The example template [c] with other base image selectors. *)
Definition withBaseImage (id os : string) (c : Config) : Config :=
  {| Comm := Comm c; Username := Username c; APIKey := APIKey c; ImageName := ImageName c;
     ImageDescription := ImageDescription c; ImageType := ImageType c;
     BaseImageId := id; BaseOsCode := os;
     UploadToDatacenters := UploadToDatacenters c; InstanceName := InstanceName c;
     InstanceDomain := InstanceDomain c; InstanceFlavor := InstanceFlavor c;
     InstanceLocalDiskFlag := InstanceLocalDiskFlag c; InstanceCpu := InstanceCpu c;
     InstanceMemory := InstanceMemory c; InstanceDiskCapacity := InstanceDiskCapacity c;
     DatacenterName := DatacenterName c; PublicVlanId := PublicVlanId c;
     InstanceNetworkSpeed := InstanceNetworkSpeed c;
     ProvisioningSshKeyId := ProvisioningSshKeyId c;
     InstancePublicSecurityGroupIds := InstancePublicSecurityGroupIds c;
     RawStateTimeout := RawStateTimeout c; StateTimeout := StateTimeout c |}.

#[global] Instance StepName_eq_dec : EqDecision StepName.
Proof. solve_decision. Defined.

(** The steps of the runner [Run] created. *)
Definition stepsOf (o : RunOutcome) : list Step :=
  match runner (self_after o) with
  | Some r => multistep.Steps r
  | None => []
  end.

(** ** More of the environment and of the examples *)

(** A builder that [config.Decode] cannot fill: an environment whose decoder
    fails. *)
Definition undecodableEnv : Env :=
  {| Raw := Config;
     config_Decode := fun c raws => (c, Some (errors_New "1 error(s) decoding"));
     Comm_Prepare := communicator.Prepare;
     time_ParseDuration := time.ParseDuration;
     time_Now_Unix := 1700000000 |}.

(** The place of the check that raises an error of [Prepare]'s own, in the
    order of the checks in the source; the two errors of the sizing check,
    which is one [if ... else if], share a place. *)
Definition checkOrder (e : PrepareError) : nat :=
  match e with
  | ErrCommunicator _ => 0
  | ErrFlavorWithSizing | ErrFlavorRequired => 1
  | ErrAPIKey => 2
  | ErrUsername => 3
  | ErrImageName => 4
  | ErrImageType _ => 5
  | ErrBaseImageRequired => 6
  | ErrBaseImageOnlyOne => 7
  | ErrStateTimeout _ => 8
  end.

(** A runner that leaves the bag as it found it. *)
Definition idleRunner
  : multistep.BasicRunner Step -> multistep.Context -> gmap string Value -> gmap string Value :=
  fun _ _ state => state.

(** The environment of the examples at another time of the clock. *)
Definition exampleEnvAt (now : Z) : Env :=
  {| Raw := Config;
     config_Decode := fun c raws => (List.last raws c, None);
     Comm_Prepare := communicator.Prepare;
     time_ParseDuration := time.ParseDuration;
     time_Now_Unix := now |}.

(** A runner that leaves a string where an error belongs. *)
Definition mistypingRunner
  : multistep.BasicRunner Step -> multistep.Context -> gmap string Value -> gmap string Value :=
  fun _ _ state => multistep.Put "error" (VString "instance failed") state.

(** A runner that fails at once with [err], whatever the steps it is given:
    its caller can tell that it was started. *)
Definition failingRunner (err : error)
  : multistep.BasicRunner Step -> multistep.Context -> gmap string Value -> gmap string Value :=
  fun _ _ state => multistep.Put "error" (VError err) state.

(** * Properties *)

(** ** The model of [time.ParseDuration]: the loop has fuel enough *)

Lemma leadingInt_from_length (s : string) :
  forall x v rest, time.leadingInt_from x s = Some (v, rest) ->
                   (String.length rest <= String.length s)%nat.
Proof.
  induction s as [|c s IH]; intros x v rest Hread; cbn [time.leadingInt_from] in Hread.
  - injection Hread as _ <-. reflexivity.
  - destruct (time.is_digit c).
    + destruct (2 ^ 63 / 10 <? x); [discriminate |].
      destruct (2 ^ 63 <? _); [discriminate |].
      apply IH in Hread. cbn [String.length]. lia.
    + injection Hread as _ <-. reflexivity.
Qed.

Lemma leadingFraction_from_length (s : string) :
  forall x scale overflow f scale' rest,
    time.leadingFraction_from x scale overflow s = (f, scale', rest) ->
    (String.length rest <= String.length s)%nat.
Proof.
  induction s as [|c s IH]; intros x scale overflow f scale' rest Hread;
    cbn [time.leadingFraction_from] in Hread.
  - injection Hread as _ _ <-. reflexivity.
  - destruct (time.is_digit c).
    + assert (String.length rest <= String.length s)%nat; [| cbn [String.length]; lia].
      destruct overflow; [now apply IH in Hread |].
      destruct ((2 ^ 63 - 1) / 10 <? x); [now apply IH in Hread |].
      destruct (2 ^ 63 <? _); now apply IH in Hread.
    + injection Hread as _ _ <-. reflexivity.
Qed.

Lemma split_unit_length (s : string) :
  forall u rest, time.split_unit s = (u, rest) ->
                 String.length s = (String.length u + String.length rest)%nat.
Proof.
  induction s as [|c s IH]; intros u rest Hsplit; cbn [time.split_unit] in Hsplit.
  - injection Hsplit as <- <-. reflexivity.
  - destruct (Ascii.eqb c "." || time.is_digit c).
    + injection Hsplit as <- <-. reflexivity.
    + destruct (time.split_unit s) as [u' rest'].
      injection Hsplit as <- <-. cbn [String.length]. now rewrite (IH u' rest' eq_refl).
Qed.

(** A round of the loop leaves less of the string than it found. *)
Lemma segment_length (orig : string) (d d' : Z) (s rest : string) :
  time.segment orig d s = inl (d', rest) -> (String.length rest < String.length s)%nat.
Proof.
  unfold time.segment. destruct s as [|c s]; [discriminate |].
  destruct (negb _); [discriminate |].
  destruct (time.leadingInt (String c s)) as [[v s1]|] eqn:Hint; [| discriminate].
  apply leadingInt_from_length in Hint.
  assert (Hunit : forall s2 s3 u,
            (String.length s2 <= String.length (String c s))%nat ->
            time.split_unit s2 = (u, s3) -> u <> "" ->
            (String.length s3 < String.length (String c s))%nat).
  { intros s2 s3 u Hs2 Hsplit Hu. apply split_unit_length in Hsplit.
    destruct u; [congruence | cbn [String.length] in *; lia]. }
  destruct s1 as [|c1 s1'];
    [| destruct (Ascii.eqb c1 ".");
       [destruct (time.leadingFraction s1') as [[f scale] s2] eqn:Hfrac;
        apply leadingFraction_from_length in Hfrac |]].
  all: cbv beta iota zeta.
  all: destruct (negb _ && negb _); cbv beta iota; try discriminate.
  all: match goal with
       | |- context [time.split_unit ?s2] =>
           pose proof (Hunit s2) as Hless;
           destruct (time.split_unit s2) as [u s3];
           specialize (Hless s3 u)
       end.
  all: destruct (String.eqb_spec u ""); [discriminate |].
  all: destruct (time.unitMap u); [| discriminate].
  all: repeat (match goal with
               | |- context [if ?b then inr _ else _] => destruct b; [discriminate |]
               end).
  all: intros [= _ <-]; apply Hless; [cbn [String.length] in *; lia | reflexivity | assumption].
Qed.

(** With fuel for every byte left to read, the loop of [ParseDuration] does
    not depend on the fuel: it ends before the fuel does. *)
Lemma parse_segments_fuel (fuel : nat) :
  forall fuel' orig d s,
    (String.length s <= fuel)%nat -> (String.length s <= fuel')%nat ->
    time.parse_segments fuel orig d s = time.parse_segments fuel' orig d s.
Proof.
  induction fuel as [|fuel IH]; intros fuel' orig d s Hfuel Hfuel'.
  - destruct s; [destruct fuel'; reflexivity | cbn [String.length] in Hfuel; lia].
  - destruct s as [|c s]; [destruct fuel'; reflexivity |].
    destruct fuel' as [|fuel']; [cbn [String.length] in Hfuel'; lia |].
    cbn [time.parse_segments].
    destruct (time.segment orig d (String c s)) as [[d' rest]|] eqn:Hsegment; [| reflexivity].
    apply segment_length in Hsegment. apply IH; lia.
Qed.

(** The parser on durations of the library's documentation and tests. *)
Example ParseDuration_examples :
  time.ParseDuration "10m" = (10 * time.Minute, None)
  /\ time.ParseDuration "1h30m" = (90 * time.Minute, None)
  /\ time.ParseDuration "-1.5h" = (- (90 * time.Minute), None)
  /\ time.ParseDuration "300ms" = (300 * time.Millisecond, None)
  /\ time.ParseDuration "0" = (0, None)
  /\ time.ParseDuration "2562047h47m16.854775807s" = (2 ^ 63 - 1, None)
  /\ time.ParseDuration "-2562047h47m16.854775808s" = (- 2 ^ 63, None)
  /\ fst (time.ParseDuration "2562047h47m16.854775808s") = 0
  /\ snd (time.ParseDuration "2562047h47m16.854775808s") <> None
  /\ snd (time.ParseDuration "") <> None
  /\ snd (time.ParseDuration "10") <> None
  /\ snd (time.ParseDuration "ten minutes") <> None.
Proof. repeat split; try (vm_compute; reflexivity); vm_compute; discriminate. Qed.

(** ** [Prepare]: the defaults in closed form *)

(** Replace the outermost [let] by its body; used once its value is a record. *)
Ltac head_zeta :=
  lazymatch goal with
  | |- context C [let x := ?v in @?body x] =>
      let t := eval cbv beta in (body v) in
      let g := context C [t] in
      change g
  end.

Ltac config_fields :=
  cbn beta iota delta
    [Comm Username APIKey ImageName ImageDescription ImageType BaseImageId BaseOsCode
     UploadToDatacenters InstanceName InstanceDomain InstanceFlavor InstanceLocalDiskFlag
     InstanceCpu InstanceMemory InstanceDiskCapacity DatacenterName PublicVlanId
     InstanceNetworkSpeed ProvisioningSshKeyId InstancePublicSecurityGroupIds
     RawStateTimeout StateTimeout
     set_Comm set_ImageDescription set_ImageType set_InstanceName set_InstanceDomain
     set_DatacenterName set_InstanceNetworkSpeed set_RawStateTimeout set_StateTimeout
     communicator.CommType communicator.SSHUsername communicator.SSHPrivateKey
     communicator.WinRMUser communicator.set_SSHUsername communicator.set_WinRMUser].

Lemma assignDefaults_eq (E : Env) (c : Config) :
  assignDefaults E c =
  {| Comm :=
       if String.eqb (communicator.CommType (Comm c)) "winrm" then
         if String.eqb (communicator.WinRMUser (Comm c)) ""
         then communicator.set_WinRMUser "Administrator" (Comm c) else Comm c
       else if String.eqb (communicator.CommType (Comm c)) "ssh" then
         if String.eqb (communicator.SSHUsername (Comm c)) ""
         then communicator.set_SSHUsername "root" (Comm c) else Comm c
       else Comm c;
     Username := Username c; APIKey := APIKey c; ImageName := ImageName c;
     ImageDescription :=
       if String.eqb (ImageDescription c) ""
       then "Instance snapshot. Generated by packer.io" else ImageDescription c;
     ImageType := imageTypeOf c;
     BaseImageId := BaseImageId c; BaseOsCode := BaseOsCode c;
     UploadToDatacenters := UploadToDatacenters c;
     InstanceName :=
       if String.eqb (InstanceName c) ""
       then "packer-ibmcloud-%!s(int64=" +:+ fmt_d (time_Now_Unix E) +:+ ")"
       else InstanceName c;
     InstanceDomain :=
       if String.eqb (InstanceDomain c) "" then "defaultdomain.com" else InstanceDomain c;
     InstanceFlavor := InstanceFlavor c;
     InstanceLocalDiskFlag := InstanceLocalDiskFlag c;
     InstanceCpu := InstanceCpu c; InstanceMemory := InstanceMemory c;
     InstanceDiskCapacity := InstanceDiskCapacity c;
     DatacenterName := if String.eqb (DatacenterName c) "" then "ams01" else DatacenterName c;
     PublicVlanId := PublicVlanId c;
     InstanceNetworkSpeed :=
       if InstanceNetworkSpeed c =? 0 then 10 else InstanceNetworkSpeed c;
     ProvisioningSshKeyId := ProvisioningSshKeyId c;
     InstancePublicSecurityGroupIds := InstancePublicSecurityGroupIds c;
     RawStateTimeout := timeoutString c;
     StateTimeout := StateTimeout c |}.
Proof.
  destruct c as [[ty su sk wu] ? ? ? idesc ity ? ? ? iname idom ? ? ? ? ? dcn ? speed ? ? raw ?].
  cbv beta delta [assignDefaults imageTypeOf timeoutString].
  do 7 (config_fields;
        lazymatch goal with
        | |- context [let x := (if ?b then _ else _) in @?body x] => destruct b
        end;
        head_zeta).
  all: config_fields.
  all: destruct (String.eqb ty "winrm");
         [ destruct (String.eqb wu "")
         | destruct (String.eqb ty "ssh"); [ destruct (String.eqb su "") | ] ];
         reflexivity.
Qed.

(** ** [Prepare]: the checks in closed form *)

(** The configuration [checkConfig] returns: the communicator as its
    [Prepare] left it, and the parsed timeout. *)
Lemma checkConfig_config (E : Env) (c : Config) :
  fst (checkConfig E c) =
  set_StateTimeout (fst (time_ParseDuration E (RawStateTimeout c)))
    (set_Comm (fst (Comm_Prepare E (Comm c))) c).
Proof.
  unfold checkConfig.
  destruct (Comm_Prepare E (Comm c)) as [comm commErrs].
  config_fields.
  destruct (time_ParseDuration E (RawStateTimeout c)) as [d perr].
  reflexivity.
Qed.

(** The errors [checkConfig] returns, check by check, in the order of the
    checks. *)
Lemma checkConfig_Errors (E : Env) (c : Config) :
  packer.Errors (snd (checkConfig E c)) =
  (map ErrCommunicator (snd (Comm_Prepare E (Comm c)))
  ++ when (explicitSizing c && negb (String.eqb (InstanceFlavor c) "")) ErrFlavorWithSizing
  ++ when (negb (explicitSizing c) && String.eqb (InstanceFlavor c) "") ErrFlavorRequired
  ++ when (String.eqb (APIKey c) "") ErrAPIKey
  ++ when (String.eqb (Username c) "") ErrUsername
  ++ when (String.eqb (ImageName c) "") ErrImageName
  ++ when (negb (String.eqb (ImageType c) IMAGE_TYPE_STANDARD)) (ErrImageType (ImageType c))
  ++ when (String.eqb (BaseImageId c) "" && String.eqb (BaseOsCode c) "") ErrBaseImageRequired
  ++ when (negb (String.eqb (BaseImageId c) "") && negb (String.eqb (BaseOsCode c) ""))
       ErrBaseImageOnlyOne
  ++ match snd (time_ParseDuration E (RawStateTimeout c)) with
     | Some err => [ErrStateTimeout err]
     | None => []
     end)%list.
Proof.
  unfold checkConfig, explicitSizing.
  destruct (Comm_Prepare E (Comm c)) as [comm commErrs].
  config_fields.
  destruct (time_ParseDuration E (RawStateTimeout c)) as [d perr].
  destruct (0 <? InstanceCpu c), (0 <? InstanceMemory c), (0 <? InstanceDiskCapacity c),
    (String.eqb (InstanceFlavor c) ""), (String.eqb (APIKey c) ""),
    (String.eqb (Username c) ""), (String.eqb (ImageName c) ""),
    (String.eqb (ImageType c) IMAGE_TYPE_STANDARD),
    (String.eqb (BaseImageId c) ""), (String.eqb (BaseOsCode c) ""), perr;
    cbn [negb andb orb when packer.MultiErrorAppend packer.Errors snd app];
    rewrite <- ?app_assoc; cbn [app]; rewrite ?app_nil_r; reflexivity.
Qed.

(** The errors collected for a decoded configuration, in its own fields. *)
Lemma collected_eq (E : Env) (c : Config) :
  collected E c =
  (map ErrCommunicator (snd (Comm_Prepare E (Comm (assignDefaults E c))))
  ++ when (explicitSizing c && negb (String.eqb (InstanceFlavor c) "")) ErrFlavorWithSizing
  ++ when (negb (explicitSizing c) && String.eqb (InstanceFlavor c) "") ErrFlavorRequired
  ++ when (String.eqb (APIKey c) "") ErrAPIKey
  ++ when (String.eqb (Username c) "") ErrUsername
  ++ when (String.eqb (ImageName c) "") ErrImageName
  ++ when (negb (String.eqb (imageTypeOf c) IMAGE_TYPE_STANDARD)) (ErrImageType (imageTypeOf c))
  ++ when (String.eqb (BaseImageId c) "" && String.eqb (BaseOsCode c) "") ErrBaseImageRequired
  ++ when (negb (String.eqb (BaseImageId c) "") && negb (String.eqb (BaseOsCode c) ""))
       ErrBaseImageOnlyOne
  ++ match snd (time_ParseDuration E (timeoutString c)) with
     | Some err => [ErrStateTimeout err]
     | None => []
     end)%list.
Proof.
  unfold collected. rewrite checkConfig_Errors.
  generalize (snd (Comm_Prepare E (Comm (assignDefaults E c)))) as commErrs.
  intros commErrs. unfold explicitSizing.
  rewrite (assignDefaults_eq E c). config_fields. reflexivity.
Qed.

Lemma filter_ownError_communicator (errs : list error) :
  List.filter ownError (map ErrCommunicator errs) = [].
Proof. induction errs as [|err errs IH]; [reflexivity | exact IH]. Qed.

(** The errors of [Prepare]'s own checks do not depend on the communicator
    settings. *)
Lemma collected_own_errors (E : Env) (c : Config) (comm : communicator.Config) :
  List.filter ownError (collected E (set_Comm comm c)) = List.filter ownError (collected E c).
Proof.
  rewrite !collected_eq.
  rewrite (List.filter_app _ (map ErrCommunicator _)).
  rewrite (List.filter_app _
             (map ErrCommunicator (snd (Comm_Prepare E (Comm (assignDefaults E c)))))).
  rewrite !filter_ownError_communicator. reflexivity.
Qed.

(** Membership in a list built by [when]. *)
Lemma In_when {A : Type} (b : bool) (x y : A) : In y (when b x) <-> b = true /\ x = y.
Proof. destruct b; simpl; intuition congruence. Qed.

Lemma explicitSizing_true (c : Config) :
  explicitSizing c = true <->
  0 < InstanceCpu c \/ 0 < InstanceMemory c \/ 0 < InstanceDiskCapacity c.
Proof. unfold explicitSizing. rewrite !orb_true_iff, !Z.ltb_lt. tauto. Qed.

Lemma explicitSizing_false (c : Config) :
  explicitSizing c = false <->
  InstanceCpu c <= 0 /\ InstanceMemory c <= 0 /\ InstanceDiskCapacity c <= 0.
Proof. unfold explicitSizing. rewrite !orb_false_iff, !Z.ltb_ge. tauto. Qed.

(** Take hypotheses apart. *)
Ltac split_cases :=
  repeat match goal with
    | H : _ \/ _ |- _ => destruct H
    | H : _ /\ _ |- _ => destruct H
    | H : ex _ |- _ => destruct H
    | H : False |- _ => destruct H
    end.

(** Which errors [Prepare] collects: each error of the communicator, and
    an error of its own for each check that fails. *)
Lemma In_collected (E : Env) (c : Config) (e : PrepareError) :
  In e (collected E c) <->
  match e with
  | ErrCommunicator err => In err (snd (Comm_Prepare E (Comm (assignDefaults E c))))
  | ErrFlavorWithSizing => explicitSizing c = true /\ InstanceFlavor c <> ""
  | ErrFlavorRequired => explicitSizing c = false /\ InstanceFlavor c = ""
  | ErrAPIKey => APIKey c = ""
  | ErrUsername => Username c = ""
  | ErrImageName => ImageName c = ""
  | ErrImageType image_type =>
      image_type = imageTypeOf c /\ image_type <> IMAGE_TYPE_STANDARD
  | ErrBaseImageRequired => BaseImageId c = "" /\ BaseOsCode c = ""
  | ErrBaseImageOnlyOne => BaseImageId c <> "" /\ BaseOsCode c <> ""
  | ErrStateTimeout err => snd (time_ParseDuration E (timeoutString c)) = Some err
  end.
Proof.
  rewrite collected_eq, !in_app_iff, in_map_iff, !In_when.
  rewrite !andb_true_iff, !negb_true_iff, !String.eqb_eq, !String.eqb_neq.
  destruct (snd (time_ParseDuration E (timeoutString c))) as [perr|];
    destruct e; cbn [In]; (split; [ intros H; split_cases; try discriminate | intros H ]).
  all: try (match goal with H : _ = _ |- _ => injection H as <- end).
  all: try solve [intuition (subst; auto)].
  all: try discriminate.
  all: left; eexists; split; [reflexivity | assumption].
Qed.

(** [Prepare] on templates that decode without error. *)
Lemma Prepare_decoded (E : Env) (self : Builder) (raws : list (Raw E)) (c : Config) :
  config_Decode E (config self) raws = (c, None) ->
  Prepare E self raws =
  ({| config := fst (checkConfig E (assignDefaults E c)); runner := runner self |},
   {| parms := []; param2 := [];
      retErr :=
        match collected E c with
        | [] => None
        | _ :: _ =>
            Some (errors_New (packer.MultiError_Error {| packer.Errors := collected E c |}))
        end |}).
Proof.
  intros Hdecode. unfold Prepare, collected. rewrite Hdecode.
  destruct (checkConfig E (assignDefaults E c)) as [c' [errs]].
  cbn [fst snd packer.Errors]. destruct errs; reflexivity.
Qed.


(** ** The text of the error [Prepare] returns *)

Lemma append_cons (x : ascii) (a b : string) : String x a +:+ b = String x (a +:+ b).
Proof. reflexivity. Qed.

Lemma append_assoc (a b c : string) : (a +:+ b) +:+ c = a +:+ b +:+ c.
Proof. induction a as [|x a IH]; [reflexivity | now rewrite !append_cons, IH]. Qed.

Lemma append_nil_r (a : string) : a +:+ "" = a.
Proof. induction a as [|x a IH]; [reflexivity | now rewrite append_cons, IH]. Qed.

Lemma occursIn_refl (s : string) : occursIn s s.
Proof.
  exists "", "". now rewrite append_nil_r.
Qed.

Lemma occursIn_after (sub a s : string) : occursIn sub s -> occursIn sub (a +:+ s).
Proof.
  intros (before & after & ->). exists (a +:+ before), after.
  symmetry. apply append_assoc.
Qed.

(** Every element joined occurs in the result of [strings.Join]. *)
Lemma occursIn_Join (sep p : string) (points : list string) :
  In p points -> occursIn p (packer.Join points sep).
Proof.
  induction points as [|a rest IH]; [intros [] |].
  intros [-> | Hin].
  - destruct rest as [|b rest]; cbn [packer.Join].
    + apply occursIn_refl.
    + exists "", (sep +:+ packer.Join (b :: rest) sep). reflexivity.
  - destruct rest as [|b rest]; [destruct Hin |].
    change (packer.Join (a :: b :: rest) sep)
      with (a +:+ sep +:+ packer.Join (b :: rest) sep).
    destruct (IH Hin) as (before & after & ->).
    do 2 apply occursIn_after. now exists before, after.
Qed.

(** The text of a [MultiError] lists every one of its errors. *)
Lemma MultiError_Error_lists {Err : Type} `{GoError Err} (errs : list Err) (e : Err) :
  In e errs ->
  occursIn ("* " +:+ Error e) (packer.MultiError_Error {| packer.Errors := errs |}).
Proof.
  intros Hin. unfold packer.MultiError_Error. cbn [packer.Errors].
  do 4 apply occursIn_after.
  apply occursIn_Join, in_map_iff. now exists e.
Qed.

(** [Prepare] returns an error exactly when it has collected one, and the
    text of that error lists all of them. *)
Lemma Prepare_retErr (E : Env) (self : Builder) (raws : list (Raw E)) (c : Config) :
  config_Decode E (config self) raws = (c, None) ->
  (retErr (snd (Prepare E self raws)) = None <-> collected E c = [])
  /\ (forall e, In e (collected E c) ->
      exists text, retErr (snd (Prepare E self raws)) = Some (errors_New text)
                   /\ occursIn ("* " +:+ Error e) text).
Proof.
  intros Hdecode. rewrite (Prepare_decoded E self raws c Hdecode). cbn [snd retErr].
  split.
  - destruct (collected E c); split; intros; congruence.
  - intros e Hin.
    exists (packer.MultiError_Error {| packer.Errors := collected E c |}). split.
    + destruct (collected E c); [destruct Hin | reflexivity].
    + now apply MultiError_Error_lists.
Qed.

Lemma Prepare_rejects (E : Env) (self : Builder) (raws : list (Raw E)) (c : Config) (e : PrepareError) :
  config_Decode E (config self) raws = (c, None) ->
  In e (collected E c) ->
  retErr (snd (Prepare E self raws)) <> None.
Proof.
  intros Hdecode Hin. destruct (Prepare_retErr E self raws c Hdecode) as [_ Htext].
  destruct (Htext e Hin) as (text & -> & _). discriminate.
Qed.

(** [Prepare] returns no error when it has collected none. *)
Lemma Prepare_accepts (E : Env) (self : Builder) (raws : list (Raw E)) (c : Config) :
  config_Decode E (config self) raws = (c, None) ->
  (forall e, ~ In e (collected E c)) ->
  retErr (snd (Prepare E self raws)) = None.
Proof.
  intros Hdecode Hnone. apply (Prepare_retErr E self raws c Hdecode).
  destruct (collected E c) as [|e errs]; [reflexivity |].
  destruct (Hnone e). now left.
Qed.

(** ** The sizing of the instance *)

(** C3. [Prepare] accepts the sizing of the instance only when exactly one of
    a named [instance_flavor] and an explicit sizing (an [instance_cpu],
    [instance_memory] or [instance_disk_capacity] above zero) is given.  With
    both, and with neither, it collects the error of the sizing check and
    returns an error.  With exactly one, the sizing check adds no error, and
    [Prepare] returns none if no other check fails. *)
Theorem Prepare_sizing_exactly_one
    (E : Env) (self : Builder) (raws : list (Raw E)) (c : Config) :
  config_Decode E (config self) raws = (c, None) ->
  (InstanceFlavor c <> "" /\
   (0 < InstanceCpu c \/ 0 < InstanceMemory c \/ 0 < InstanceDiskCapacity c) ->
   In ErrFlavorWithSizing (collected E c) /\ retErr (snd (Prepare E self raws)) <> None)
  /\ (InstanceFlavor c = "" /\
      ~ (0 < InstanceCpu c \/ 0 < InstanceMemory c \/ 0 < InstanceDiskCapacity c) ->
      In ErrFlavorRequired (collected E c) /\ retErr (snd (Prepare E self raws)) <> None)
  /\ ((InstanceFlavor c <> "" /\
       ~ (0 < InstanceCpu c \/ 0 < InstanceMemory c \/ 0 < InstanceDiskCapacity c))
      \/ (InstanceFlavor c = "" /\
          (0 < InstanceCpu c \/ 0 < InstanceMemory c \/ 0 < InstanceDiskCapacity c)) ->
      ~ In ErrFlavorWithSizing (collected E c)
      /\ ~ In ErrFlavorRequired (collected E c)
      /\ ((forall e, In e (collected E c) -> e = ErrFlavorWithSizing \/ e = ErrFlavorRequired) ->
          retErr (snd (Prepare E self raws)) = None)).
Proof.
  intros Hdecode.
  pose proof (In_collected E c ErrFlavorWithSizing) as Hboth.
  pose proof (In_collected E c ErrFlavorRequired) as Hneither.
  cbn beta iota in Hboth, Hneither.
  rewrite explicitSizing_true in Hboth. rewrite explicitSizing_false in Hneither.
  split; [| split].
  - intros [Hflavor Hsizing].
    assert (Hin : In ErrFlavorWithSizing (collected E c)) by (apply Hboth; auto).
    split; [exact Hin | exact (Prepare_rejects E self raws c _ Hdecode Hin)].
  - intros [Hflavor Hsizing].
    assert (Hin : In ErrFlavorRequired (collected E c)) by (apply Hneither; split; [lia | auto]).
    split; [exact Hin | exact (Prepare_rejects E self raws c _ Hdecode Hin)].
  - intros Hone.
    assert (Hnot : ~ In ErrFlavorWithSizing (collected E c)
                   /\ ~ In ErrFlavorRequired (collected E c)).
    { rewrite Hboth, Hneither. destruct Hone as [[Hflavor Hsizing] | [Hflavor Hsizing]].
      - split; [tauto | intros [_ Hempty]; auto].
      - split; [intros [_ Hset]; auto | intros [Hle _]; lia]. }
    destruct Hnot as [Hnot1 Hnot2]. split; [exact Hnot1 | split; [exact Hnot2 |]].
    intros Honly. apply (Prepare_accepts E self raws c Hdecode).
    intros e Hin. destruct (Honly e Hin) as [-> | ->]; auto.
Qed.

(** A flavor and a number of CPUs; neither; a flavor alone. *)
Lemma Prepare_sizing_exactly_one_witness :
  (In ErrFlavorWithSizing (collected exampleEnv (exampleConfig "ssh" 2 0 0 ""))
   /\ retErr (snd (Prepare exampleEnv newBuilder [exampleConfig "ssh" 2 0 0 ""])) <> None)
  /\ (In ErrFlavorRequired (collected exampleEnv emptyConfig)
      /\ retErr (snd (Prepare exampleEnv newBuilder [emptyConfig])) <> None)
  /\ (~ In ErrFlavorWithSizing (collected exampleEnv (exampleConfig "ssh" 0 0 0 ""))
      /\ ~ In ErrFlavorRequired (collected exampleEnv (exampleConfig "ssh" 0 0 0 ""))).
Proof.
  split; [| split].
  - destruct (Prepare_sizing_exactly_one exampleEnv newBuilder
                [exampleConfig "ssh" 2 0 0 ""] (exampleConfig "ssh" 2 0 0 "") eq_refl)
      as (Hboth & _ & _).
    apply Hboth. split; [discriminate | left; reflexivity].
  - destruct (Prepare_sizing_exactly_one exampleEnv newBuilder [emptyConfig] emptyConfig eq_refl)
      as (_ & Hneither & _).
    apply Hneither. split; [reflexivity | intros [H | [H | H]]; discriminate H].
  - destruct (Prepare_sizing_exactly_one exampleEnv newBuilder
                [exampleConfig "ssh" 0 0 0 ""] (exampleConfig "ssh" 0 0 0 "") eq_refl)
      as (_ & _ & Hone).
    destruct Hone as (H1 & H2 & _).
    + left. split; [discriminate | intros [H | [H | H]]; discriminate H].
    + split; [exact H1 | exact H2].
Defined.

(** ** The base image *)

(** C7. [Prepare] wants exactly one of [base_image_id] and [base_os_code]:
    with both set, and with neither set, it collects the error of the check
    and returns an error; the check adds no error exactly when one of the
    two is set and the other is not, and then [Prepare] returns no error if
    no other check fails. *)
Theorem Prepare_base_image_exactly_one
    (E : Env) (self : Builder) (raws : list (Raw E)) (c : Config) :
  config_Decode E (config self) raws = (c, None) ->
  (BaseImageId c <> "" /\ BaseOsCode c <> "" ->
   In ErrBaseImageOnlyOne (collected E c) /\ retErr (snd (Prepare E self raws)) <> None)
  /\ (BaseImageId c = "" /\ BaseOsCode c = "" ->
      In ErrBaseImageRequired (collected E c) /\ retErr (snd (Prepare E self raws)) <> None)
  /\ (~ In ErrBaseImageOnlyOne (collected E c) /\ ~ In ErrBaseImageRequired (collected E c)
      <-> (BaseImageId c <> "" /\ BaseOsCode c = "")
          \/ (BaseImageId c = "" /\ BaseOsCode c <> ""))
  /\ ((BaseImageId c <> "" /\ BaseOsCode c = "") \/ (BaseImageId c = "" /\ BaseOsCode c <> "") ->
      (forall e, In e (collected E c) -> e = ErrBaseImageOnlyOne \/ e = ErrBaseImageRequired) ->
      retErr (snd (Prepare E self raws)) = None).
Proof.
  intros Hdecode.
  pose proof (In_collected E c ErrBaseImageOnlyOne) as Hboth.
  pose proof (In_collected E c ErrBaseImageRequired) as Hneither.
  cbn beta iota in Hboth, Hneither.
  assert (Hone : ~ In ErrBaseImageOnlyOne (collected E c)
                 /\ ~ In ErrBaseImageRequired (collected E c)
                 <-> (BaseImageId c <> "" /\ BaseOsCode c = "")
                     \/ (BaseImageId c = "" /\ BaseOsCode c <> "")).
  { rewrite Hboth, Hneither.
    destruct (String.eqb_spec (BaseImageId c) ""), (String.eqb_spec (BaseOsCode c) ""); tauto. }
  split; [| split; [| split]].
  - intros Hset.
    assert (Hin : In ErrBaseImageOnlyOne (collected E c)) by (now apply Hboth).
    split; [exact Hin | exact (Prepare_rejects E self raws c _ Hdecode Hin)].
  - intros Hempty.
    assert (Hin : In ErrBaseImageRequired (collected E c)) by (now apply Hneither).
    split; [exact Hin | exact (Prepare_rejects E self raws c _ Hdecode Hin)].
  - exact Hone.
  - intros Hexact Honly. apply (Prepare_accepts E self raws c Hdecode).
    apply Hone in Hexact. destruct Hexact as [Hnot1 Hnot2].
    intros e Hin. destruct (Honly e Hin) as [-> | ->]; auto.
Qed.

(** Both selectors; neither; the operating system code alone. *)
Lemma Prepare_base_image_exactly_one_witness :
  (In ErrBaseImageOnlyOne
      (collected exampleEnv (withBaseImage "123" "UBUNTU_LATEST" (exampleConfig "ssh" 0 0 0 "")))
   /\ retErr (snd (Prepare exampleEnv newBuilder
                     [withBaseImage "123" "UBUNTU_LATEST" (exampleConfig "ssh" 0 0 0 "")]))
      <> None)
  /\ (In ErrBaseImageRequired (collected exampleEnv emptyConfig)
      /\ retErr (snd (Prepare exampleEnv newBuilder [emptyConfig])) <> None)
  /\ (~ In ErrBaseImageOnlyOne (collected exampleEnv (exampleConfig "ssh" 0 0 0 ""))
      /\ ~ In ErrBaseImageRequired (collected exampleEnv (exampleConfig "ssh" 0 0 0 ""))).
Proof.
  split; [| split].
  - destruct (Prepare_base_image_exactly_one exampleEnv newBuilder
                [withBaseImage "123" "UBUNTU_LATEST" (exampleConfig "ssh" 0 0 0 "")]
                (withBaseImage "123" "UBUNTU_LATEST" (exampleConfig "ssh" 0 0 0 "")) eq_refl)
      as (Hboth & _ & _ & _).
    apply Hboth. split; discriminate.
  - destruct (Prepare_base_image_exactly_one exampleEnv newBuilder
                [emptyConfig] emptyConfig eq_refl) as (_ & Hneither & _ & _).
    apply Hneither. split; reflexivity.
  - destruct (Prepare_base_image_exactly_one exampleEnv newBuilder
                [exampleConfig "ssh" 0 0 0 ""] (exampleConfig "ssh" 0 0 0 "") eq_refl)
      as (_ & _ & Hone & _).
    apply Hone. right. split; [reflexivity | discriminate].
Defined.

(** ** Sizing values that are not positive *)

(** C10. [Prepare] treats explicit sizing values that are not positive as
    unset: with an [instance_flavor] and with [instance_cpu],
    [instance_memory] and [instance_disk_capacity] all zero or negative, the
    sizing check adds no error, and [Prepare] returns none if no other check
    fails.  Only a value above zero counts as explicit sizing: with a flavor,
    the sizing check fails as soon as one of the three is positive, whatever
    the sign of the others. *)
Theorem Prepare_nonpositive_sizing_is_unset
    (E : Env) (self : Builder) (raws : list (Raw E)) (c : Config) :
  config_Decode E (config self) raws = (c, None) ->
  InstanceFlavor c <> "" ->
  (InstanceCpu c <= 0 /\ InstanceMemory c <= 0 /\ InstanceDiskCapacity c <= 0 ->
   ~ In ErrFlavorWithSizing (collected E c)
   /\ ~ In ErrFlavorRequired (collected E c)
   /\ ((forall e, In e (collected E c) -> e = ErrFlavorWithSizing \/ e = ErrFlavorRequired) ->
       retErr (snd (Prepare E self raws)) = None))
  /\ (0 < InstanceCpu c \/ 0 < InstanceMemory c \/ 0 < InstanceDiskCapacity c ->
      In ErrFlavorWithSizing (collected E c)).
Proof.
  intros Hdecode Hflavor. split.
  - intros (Hcpu & Hmemory & Hdisk).
    assert (Hnot : ~ In ErrFlavorWithSizing (collected E c)
                   /\ ~ In ErrFlavorRequired (collected E c)).
    { rewrite !In_collected, explicitSizing_true. split; [lia | tauto]. }
    destruct Hnot as [Hnot1 Hnot2]. split; [exact Hnot1 | split; [exact Hnot2 |]].
    intros Honly. apply (Prepare_accepts E self raws c Hdecode).
    intros e Hin. destruct (Honly e Hin) as [-> | ->]; auto.
  - intros Hpositive. apply In_collected. split; [| exact Hflavor].
    now apply explicitSizing_true.
Qed.

(** A flavor with [instance_cpu] at -1, [instance_memory] at 0 and
    [instance_disk_capacity] at -25; and a flavor with [instance_cpu] at -1
    and [instance_memory] at 4096. *)
Lemma Prepare_nonpositive_sizing_is_unset_witness :
  (~ In ErrFlavorWithSizing (collected exampleEnv (exampleConfig "ssh" (-1) 0 (-25) ""))
   /\ ~ In ErrFlavorRequired (collected exampleEnv (exampleConfig "ssh" (-1) 0 (-25) ""))
   /\ retErr (snd (Prepare exampleEnv newBuilder [exampleConfig "ssh" (-1) 0 (-25) ""])) = None)
  /\ In ErrFlavorWithSizing (collected exampleEnv (exampleConfig "ssh" (-1) 4096 0 "")).
Proof.
  split.
  - destruct (Prepare_nonpositive_sizing_is_unset exampleEnv newBuilder
                [exampleConfig "ssh" (-1) 0 (-25) ""] (exampleConfig "ssh" (-1) 0 (-25) "") eq_refl)
      as (Hunset & _); [discriminate |].
    destruct Hunset as (H1 & H2 & Haccepts); [simpl; lia |].
    split; [exact H1 | split; [exact H2 |]].
    apply Haccepts. intros e Hin. vm_compute in Hin. destruct Hin.
  - destruct (Prepare_nonpositive_sizing_is_unset exampleEnv newBuilder
                [exampleConfig "ssh" (-1) 4096 0 ""] (exampleConfig "ssh" (-1) 4096 0 "") eq_refl)
      as (_ & Hpositive); [discriminate |].
    apply Hpositive. right. left. simpl. lia.
Defined.

(** ** The state timeout *)

(** The errors collected are the same whatever durations the parser returns. *)
Lemma collected_withDurations (d : string -> time.Duration) (E : Env) (c : Config) :
  collected (withDurations d E) c = collected E c.
Proof.
  rewrite !collected_eq.
  change (assignDefaults (withDurations d E) c) with (assignDefaults E c).
  reflexivity.
Qed.

(** C6, as the code has it.  [Prepare] parses [instance_state_timeout], with
    [10m] in place of an empty string.  When the string does not parse,
    [Prepare] collects the error and returns an error.  When [Prepare]
    returns no error the string has parsed, and [StateTimeout] is the
    duration the parser gave, whatever its sign: [Prepare] does not compare
    it with zero.  A string that parses adds no timeout error, so [Prepare]
    returns no error when no other check fails; and with a parser that
    reports the same errors and returns other durations, [Prepare] collects
    the same errors, returns the same error, and leaves in [StateTimeout]
    the duration of that parser. *)
Theorem Prepare_state_timeout_is_the_parsed_duration
    (E : Env) (self : Builder) (raws : list (Raw E)) (c : Config) :
  config_Decode E (config self) raws = (c, None) ->
  (forall err, snd (time_ParseDuration E (timeoutString c)) = Some err ->
     In (ErrStateTimeout err) (collected E c)
     /\ retErr (snd (Prepare E self raws)) <> None)
  /\ (retErr (snd (Prepare E self raws)) = None ->
      snd (time_ParseDuration E (timeoutString c)) = None)
  /\ StateTimeout (config (fst (Prepare E self raws)))
     = fst (time_ParseDuration E (timeoutString c))
  /\ (snd (time_ParseDuration E (timeoutString c)) = None ->
      (forall err, ~ In (ErrStateTimeout err) (collected E c))
      /\ ((forall e, In e (collected E c) -> exists err, e = ErrStateTimeout err) ->
          retErr (snd (Prepare E self raws)) = None))
  /\ (forall d : string -> time.Duration,
        collected (withDurations d E) c = collected E c
        /\ retErr (snd (Prepare (withDurations d E) self raws))
           = retErr (snd (Prepare E self raws))
        /\ StateTimeout (config (fst (Prepare (withDurations d E) self raws)))
           = d (timeoutString c)).
Proof.
  intros Hdecode.
  assert (Hfails : forall err, snd (time_ParseDuration E (timeoutString c)) = Some err ->
            In (ErrStateTimeout err) (collected E c)
            /\ retErr (snd (Prepare E self raws)) <> None).
  { intros err Hparse.
    assert (Hin : In (ErrStateTimeout err) (collected E c)) by (now apply In_collected).
    split; [exact Hin | exact (Prepare_rejects E self raws c _ Hdecode Hin)]. }
  assert (Htimeout : forall E' : Env, forall (self' : Builder) (raws' : list (Raw E')),
            config_Decode E' (config self') raws' = (c, None) ->
            StateTimeout (config (fst (Prepare E' self' raws')))
            = fst (time_ParseDuration E' (timeoutString c))).
  { intros E' self' raws' Hdecode'.
    rewrite (Prepare_decoded E' self' raws' c Hdecode'). cbn [fst config].
    rewrite checkConfig_config. cbn [StateTimeout set_StateTimeout].
    rewrite (assignDefaults_eq E' c). reflexivity. }
  split; [exact Hfails | split; [| split; [| split]]].
  - intros Haccepted.
    destruct (snd (time_ParseDuration E (timeoutString c))) as [err|] eqn:Hparse;
      [| reflexivity].
    destruct (Hfails err eq_refl) as [_ Hrejected]. contradiction.
  - exact (Htimeout E self raws Hdecode).
  - intros Hparse.
    assert (Hnone : forall err, ~ In (ErrStateTimeout err) (collected E c)).
    { intros err Hin. apply In_collected in Hin. cbn beta iota in Hin. congruence. }
    split; [exact Hnone |].
    intros Hothers. apply (Prepare_accepts E self raws c Hdecode).
    intros e Hin. destruct (Hothers e Hin) as [err ->]. exact (Hnone err Hin).
  - intros d.
    assert (Hdecode' : config_Decode (withDurations d E) (config self) raws = (c, None))
      by exact Hdecode.
    split; [apply collected_withDurations | split].
    + rewrite (Prepare_decoded (withDurations d E) self raws c Hdecode').
      rewrite (Prepare_decoded E self raws c Hdecode). cbn [snd retErr].
      rewrite collected_withDurations. reflexivity.
    + exact (Htimeout (withDurations d E) self raws Hdecode').
Qed.

(** The default timeout, ten minutes; a timeout without a unit; and a
    negative timeout, which is accepted. *)
Lemma Prepare_state_timeout_is_the_parsed_duration_witness :
  (snd (time.ParseDuration "10m") = None
   /\ StateTimeout (config (fst (Prepare exampleEnv newBuilder [exampleConfig "ssh" 0 0 0 ""])))
      = 10 * time.Minute)
  /\ retErr (snd (Prepare exampleEnv newBuilder [exampleConfig "ssh" 0 0 0 "10"])) <> None
  /\ (retErr (snd (Prepare exampleEnv newBuilder [exampleConfig "ssh" 0 0 0 "-5m"])) = None
      /\ StateTimeout (config (fst (Prepare exampleEnv newBuilder
                                      [exampleConfig "ssh" 0 0 0 "-5m"])))
         = -5 * time.Minute).
Proof.
  split; [| split].
  - destruct (Prepare_state_timeout_is_the_parsed_duration exampleEnv newBuilder
                [exampleConfig "ssh" 0 0 0 ""] (exampleConfig "ssh" 0 0 0 "") eq_refl)
      as (_ & Hparsed & Htimeout & _).
    split; [apply Hparsed; vm_compute; reflexivity |].
    rewrite Htimeout. vm_compute. reflexivity.
  - destruct (Prepare_state_timeout_is_the_parsed_duration exampleEnv newBuilder
                [exampleConfig "ssh" 0 0 0 "10"] (exampleConfig "ssh" 0 0 0 "10") eq_refl)
      as (Hfails & _).
    eapply Hfails. vm_compute. reflexivity.
  - destruct (Prepare_state_timeout_is_the_parsed_duration exampleEnv newBuilder
                [exampleConfig "ssh" 0 0 0 "-5m"] (exampleConfig "ssh" 0 0 0 "-5m") eq_refl)
      as (_ & _ & Htimeout & Hparses & _).
    split.
    + destruct Hparses as [_ Haccepts]; [vm_compute; reflexivity |].
      apply Haccepts. intros e Hin. vm_compute in Hin. destruct Hin.
    + rewrite Htimeout. vm_compute. reflexivity.
Defined.

(** C6, as the claim has it, fails: [Prepare] accepts the timeouts [0s] and
    [-5m], and the [StateTimeout] it leaves is zero, or below zero, not a
    positive duration. *)
Lemma Prepare_accepts_zero_and_negative_state_timeout :
  (retErr (snd (Prepare exampleEnv newBuilder [exampleConfig "ssh" 0 0 0 "0s"])) = None
   /\ StateTimeout (config (fst (Prepare exampleEnv newBuilder [exampleConfig "ssh" 0 0 0 "0s"])))
      = 0)
  /\ (retErr (snd (Prepare exampleEnv newBuilder [exampleConfig "ssh" 0 0 0 "-5m"])) = None
      /\ StateTimeout (config (fst (Prepare exampleEnv newBuilder
                                      [exampleConfig "ssh" 0 0 0 "-5m"])))
         = -300000000000).
Proof. repeat split; vm_compute; reflexivity. Qed.

(** ** All the errors at once *)

(** C8. [Prepare] does not stop at the first check that fails: every check
    that fails adds its error to the ones collected, after the errors of the
    communicator, and the one error [Prepare] returns carries the text of
    each error collected. *)
Theorem Prepare_reports_every_violation
    (E : Env) (self : Builder) (raws : list (Raw E)) (c : Config) :
  config_Decode E (config self) raws = (c, None) ->
  (forall e, In e (collected E c) ->
     exists text, retErr (snd (Prepare E self raws)) = Some (errors_New text)
                  /\ occursIn ("* " +:+ Error e) text)
  /\ (forall err, In err (snd (Comm_Prepare E (Comm (assignDefaults E c)))) ->
      In (ErrCommunicator err) (collected E c))
  /\ (InstanceFlavor c <> "" /\
      (0 < InstanceCpu c \/ 0 < InstanceMemory c \/ 0 < InstanceDiskCapacity c) ->
      In ErrFlavorWithSizing (collected E c))
  /\ (InstanceFlavor c = "" /\
      InstanceCpu c <= 0 /\ InstanceMemory c <= 0 /\ InstanceDiskCapacity c <= 0 ->
      In ErrFlavorRequired (collected E c))
  /\ (APIKey c = "" -> In ErrAPIKey (collected E c))
  /\ (Username c = "" -> In ErrUsername (collected E c))
  /\ (ImageName c = "" -> In ErrImageName (collected E c))
  /\ (ImageType c <> "" /\ ImageType c <> IMAGE_TYPE_STANDARD ->
      In (ErrImageType (ImageType c)) (collected E c))
  /\ (BaseImageId c = "" /\ BaseOsCode c = "" -> In ErrBaseImageRequired (collected E c))
  /\ (BaseImageId c <> "" /\ BaseOsCode c <> "" -> In ErrBaseImageOnlyOne (collected E c))
  /\ (forall err, snd (time_ParseDuration E (timeoutString c)) = Some err ->
      In (ErrStateTimeout err) (collected E c)).
Proof.
  intros Hdecode.
  split; [exact (proj2 (Prepare_retErr E self raws c Hdecode)) |].
  repeat split; intros; apply In_collected; cbn beta iota;
    rewrite ?explicitSizing_true, ?explicitSizing_false; try tauto.
  unfold imageTypeOf.
  destruct (String.eqb_spec (ImageType c) ""); tauto.
Qed.

(** The template with nothing set: five checks fail, and the error returned
    has the text of all five (after the communicator's own complaint). *)
Lemma Prepare_reports_every_violation_witness :
  let returned := retErr (snd (Prepare exampleEnv newBuilder [emptyConfig])) in
  (exists text, returned = Some (errors_New text)
                /\ occursIn ("* " +:+ Error ErrFlavorRequired) text)
  /\ (exists text, returned = Some (errors_New text) /\ occursIn ("* " +:+ Error ErrAPIKey) text)
  /\ (exists text, returned = Some (errors_New text) /\ occursIn ("* " +:+ Error ErrUsername) text)
  /\ (exists text, returned = Some (errors_New text) /\ occursIn ("* " +:+ Error ErrImageName) text)
  /\ (exists text, returned = Some (errors_New text)
                   /\ occursIn ("* " +:+ Error ErrBaseImageRequired) text).
Proof.
  destruct (Prepare_reports_every_violation exampleEnv newBuilder [emptyConfig] emptyConfig eq_refl)
    as (Htext & _ & _ & Hflavor & Hkey & Huser & Hname & _ & Hbase & _ & _).
  repeat split; apply Htext.
  - apply Hflavor. split; [reflexivity | simpl; lia].
  - apply Hkey. reflexivity.
  - apply Huser. reflexivity.
  - apply Hname. reflexivity.
  - apply Hbase. split; reflexivity.
Defined.

(** ** [Run]: the runner and what [Run] makes of the final state *)

Section Run.
Variable runner_Run :
  multistep.BasicRunner Step -> multistep.Context -> gmap string Value -> gmap string Value.
Variable self : Builder.
Variable ctx : multistep.Context.
Variable ui : Ui.
Variable hook : Hook.

(** [Run] creates the runner for the steps it built, whatever the configuration. *)
Lemma Run_runner :
  runner (self_after (Run runner_Run self ctx ui hook))
  = Some {| multistep.Steps := buildSteps self |}.
Proof.
  unfold Run.
  destruct (multistep.GetOk "error" _) as [[]|];
    [..| destruct (multistep.GetOk "image_id" _) as [[]|]]; reflexivity.
Qed.

Lemma Run_stepsOf : stepsOf (Run runner_Run self ctx ui hook) = buildSteps self.
Proof. unfold stepsOf. now rewrite Run_runner. Qed.

(** The configuration of the builder is the same after [Run]. *)
Lemma Run_config : config (self_after (Run runner_Run self ctx ui hook)) = config self.
Proof.
  unfold Run.
  destruct (multistep.GetOk "error" _) as [[]|];
    [..| destruct (multistep.GetOk "image_id" _) as [[]|]]; reflexivity.
Qed.

(** [Run] calls the runner once, on the steps it built: another runner that
    does the same on these steps gives the same outcome. *)
Lemma Run_runs_the_steps_built
    (other : multistep.BasicRunner Step -> multistep.Context ->
             gmap string Value -> gmap string Value) :
  (forall state, other {| multistep.Steps := buildSteps self |} ctx state
                 = runner_Run {| multistep.Steps := buildSteps self |} ctx state) ->
  Run other self ctx ui hook = Run runner_Run self ctx ui hook.
Proof. intros Hsame. unfold Run. now rewrite Hsame. Qed.

(** What [Run] returns, by the final state. *)
Lemma Run_result :
  result (Run runner_Run self ctx ui hook) =
  match finalState runner_Run self ctx ui hook !! "error" with
  | Some (VError err) => Return None (Some err)
  | Some _ => Panic "rawErr.(error)"
  | None =>
      match finalState runner_Run self ctx ui hook !! "image_id" with
      | None => Return None None
      | Some (VString image_id) =>
          Return (Some {| imageName := ImageName (config self);
                          imageId := image_id;
                          datacenterName := DatacenterName (config self);
                          client := SoftlayerClient_New (Username (config self))
                                      (APIKey (config self)) |})
                 None
      | Some _ => Panic "state.Get(image_id).(string)"
      end
  end.
Proof.
  unfold Run, finalState, multistep.GetOk.
  destruct (_ !! "error") as [[]|]; [..| destruct (_ !! "image_id") as [[]|]]; reflexivity.
Qed.

(** What [Run] logs, by the final state. *)
Lemma Run_logged :
  logged (Run runner_Run self ctx ui hook) =
  match finalState runner_Run self ctx ui hook !! "error",
        finalState runner_Run self ctx ui hook !! "image_id" with
  | None, None => ["Failed to find image_id in state. Bug?"]
  | _, _ => []
  end.
Proof.
  unfold Run, finalState, multistep.GetOk.
  destruct (_ !! "error") as [[]|]; [..| destruct (_ !! "image_id") as [[]|]]; reflexivity.
Qed.

End Run.

(** ** The step sequence *)

(** C1. [Run] selects the steps by the communicator type alone.  For [ssh]:
    create the key, create the instance, wait for it, grab its address,
    connect, provision, capture.  For [winrm]: create the instance, wait,
    grab the address, connect, wait again, provision, capture; the wait
    step occurs twice, once before and once after the connect step.  Two
    builds of the same communicator type run steps of the same names, and
    the runner is given the steps selected before it starts. *)
Theorem Run_selects_steps_by_communicator_type
    (runner_Run : multistep.BasicRunner Step -> multistep.Context ->
                  gmap string Value -> gmap string Value)
    (self : Builder) (ctx : multistep.Context) (ui : Ui) (hook : Hook) :
  (communicator.CommType (Comm (config self)) = "ssh" ->
   stepsOf (Run runner_Run self ctx ui hook) =
   [ stepCreateSshKey (communicator.SSHPrivateKey (Comm (config self)));
     stepCreateInstance;
     stepWaitforInstance;
     stepGrabPublicIP;
     StepConnect (Comm (config self)) sshCommHost (Some sshConfig) None;
     StepProvision;
     stepCaptureImage ])
  /\ (communicator.CommType (Comm (config self)) = "winrm" ->
      let before := [stepCreateInstance; stepWaitforInstance; stepGrabPublicIP] in
      let connect := StepConnect (Comm (config self)) winRMCommHost None (Some winRMConfig) in
      let after := [stepWaitforInstance; StepProvision; stepCaptureImage] in
      stepsOf (Run runner_Run self ctx ui hook) = (before ++ connect :: after)%list
      /\ count_occ StepName_eq_dec (map step_name before) WaitforInstance = 1%nat
      /\ count_occ StepName_eq_dec (map step_name after) WaitforInstance = 1%nat
      /\ count_occ StepName_eq_dec
           (map step_name (stepsOf (Run runner_Run self ctx ui hook))) WaitforInstance = 2%nat)
  /\ (forall runner_Run' self' ctx' ui' hook',
        communicator.CommType (Comm (config self'))
        = communicator.CommType (Comm (config self)) ->
        map step_name (stepsOf (Run runner_Run' self' ctx' ui' hook'))
        = map step_name (stepsOf (Run runner_Run self ctx ui hook)))
  /\ (forall other,
        (forall state,
           other {| multistep.Steps := stepsOf (Run runner_Run self ctx ui hook) |} ctx state
           = runner_Run {| multistep.Steps := stepsOf (Run runner_Run self ctx ui hook) |}
               ctx state) ->
        Run other self ctx ui hook = Run runner_Run self ctx ui hook).
Proof.
  rewrite !Run_stepsOf. split; [| split; [| split]].
  - intros Htype. unfold buildSteps. rewrite Htype. reflexivity.
  - intros Htype before connect after.
    assert (Hsteps : buildSteps self = (before ++ connect :: after)%list)
      by (unfold buildSteps; rewrite Htype; reflexivity).
    rewrite Hsteps. repeat split.
  - intros runner_Run' self' ctx' ui' hook' Htype.
    rewrite Run_stepsOf. unfold buildSteps. rewrite Htype.
    destruct (String.eqb _ "winrm"); [reflexivity |].
    destruct (String.eqb _ "ssh"); reflexivity.
  - apply Run_runs_the_steps_built.
Qed.

(** The two kinds of build, with the fake provider. *)
Lemma Run_selects_steps_by_communicator_type_witness :
  map step_name
    (stepsOf (Run (fakeRunner false) (preparedBuilder (exampleConfig "ssh" 0 0 0 ""))
                multistep.Background exampleUi exampleHook))
  = [CreateSshKey; CreateInstance; WaitforInstance; GrabPublicIP; Connect; Provision;
     CaptureImage]
  /\ map step_name
       (stepsOf (Run (fakeRunner false) (preparedBuilder (exampleConfig "winrm" 0 0 0 ""))
                   multistep.Background exampleUi exampleHook))
     = [CreateInstance; WaitforInstance; GrabPublicIP; Connect; WaitforInstance; Provision;
        CaptureImage].
Proof.
  split.
  - destruct (Run_selects_steps_by_communicator_type (fakeRunner false)
                (preparedBuilder (exampleConfig "ssh" 0 0 0 ""))
                multistep.Background exampleUi exampleHook) as (Hssh & _).
    rewrite Hssh; reflexivity.
  - destruct (Run_selects_steps_by_communicator_type (fakeRunner false)
                (preparedBuilder (exampleConfig "winrm" 0 0 0 ""))
                multistep.Background exampleUi exampleHook) as (_ & Hwinrm & _).
    destruct Hwinrm as (Hsteps & _); [reflexivity |].
    rewrite Hsteps; reflexivity.
Defined.

(** ** What [Run] returns *)

(** C9. When the runner leaves no [error] and an [image_id] in the state
    bag, [Run] returns no error and an artifact with the image name and the
    datacenter name of the configuration and the image id of the bag. *)
Theorem Run_returns_the_artifact
    (runner_Run : multistep.BasicRunner Step -> multistep.Context ->
                  gmap string Value -> gmap string Value)
    (self : Builder) (ctx : multistep.Context) (ui : Ui) (hook : Hook) (image_id : string) :
  finalState runner_Run self ctx ui hook !! "error" = None ->
  finalState runner_Run self ctx ui hook !! "image_id" = Some (VString image_id) ->
  exists artifact,
    result (Run runner_Run self ctx ui hook) = Return (Some artifact) None
    /\ imageName artifact = ImageName (config self)
    /\ datacenterName artifact = DatacenterName (config self)
    /\ imageId artifact = image_id.
Proof.
  intros Herror Himage. rewrite Run_result, Herror, Himage.
  eexists. split; [reflexivity |]. repeat split.
Qed.

(** An [ssh] build against the fake provider, which captures image 1234567. *)
Lemma Run_returns_the_artifact_witness :
  exists artifact,
    result (Run (fakeRunner false) (preparedBuilder (exampleConfig "ssh" 0 0 0 ""))
              multistep.Background exampleUi exampleHook)
    = Return (Some artifact) None
    /\ imageName artifact = "my-image"
    /\ datacenterName artifact = "ams01"
    /\ imageId artifact = "1234567".
Proof.
  apply (Run_returns_the_artifact (fakeRunner false)
           (preparedBuilder (exampleConfig "ssh" 0 0 0 ""))
           multistep.Background exampleUi exampleHook "1234567");
    vm_compute; reflexivity.
Defined.

(** C5. When the runner leaves an [error] in the state bag, [Run] returns
    that error and no artifact; with the key present [Run] never returns an
    artifact, whatever else the bag holds. *)
Theorem Run_returns_the_error
    (runner_Run : multistep.BasicRunner Step -> multistep.Context ->
                  gmap string Value -> gmap string Value)
    (self : Builder) (ctx : multistep.Context) (ui : Ui) (hook : Hook) (rawErr : Value) :
  finalState runner_Run self ctx ui hook !! "error" = Some rawErr ->
  (forall err, rawErr = VError err ->
     result (Run runner_Run self ctx ui hook) = Return None (Some err))
  /\ (forall artifact err,
        result (Run runner_Run self ctx ui hook) <> Return (Some artifact) err).
Proof.
  intros Herror. rewrite Run_result, Herror. split.
  - intros err ->. reflexivity.
  - intros artifact err. destruct rawErr; discriminate.
Qed.

(** A [winrm] build against a fake provider that refuses to create the instance. *)
Lemma Run_returns_the_error_witness :
  result (Run (fakeRunner true) (preparedBuilder (exampleConfig "winrm" 0 0 0 ""))
            multistep.Background exampleUi exampleHook)
  = Return None (Some (errors_New "provider: cannot create the instance")).
Proof.
  destruct (Run_returns_the_error (fakeRunner true)
              (preparedBuilder (exampleConfig "winrm" 0 0 0 ""))
              multistep.Background exampleUi exampleHook
              (VError (errors_New "provider: cannot create the instance")))
    as (Hreturned & _).
  - vm_compute; reflexivity.
  - apply Hreturned. reflexivity.
Defined.

(** ** A run that leaves neither an error nor an image *)

(** C2, as the code has it.  When the runner leaves neither [error] nor
    [image_id] in the state bag, [Run] logs one line and returns no artifact
    and no error: the caller is not told of a failure. *)
Theorem Run_without_error_or_image_returns_nothing
    (runner_Run : multistep.BasicRunner Step -> multistep.Context ->
                  gmap string Value -> gmap string Value)
    (self : Builder) (ctx : multistep.Context) (ui : Ui) (hook : Hook) :
  finalState runner_Run self ctx ui hook !! "error" = None ->
  finalState runner_Run self ctx ui hook !! "image_id" = None ->
  logged (Run runner_Run self ctx ui hook) = ["Failed to find image_id in state. Bug?"]
  /\ result (Run runner_Run self ctx ui hook) = Return None None
  /\ failsLoudly (result (Run runner_Run self ctx ui hook)) = false.
Proof.
  intros Herror Himage. rewrite Run_result, Run_logged, Herror, Himage. repeat split.
Qed.

(** A [winrm] build cancelled before its first step. *)
Lemma Run_without_error_or_image_returns_nothing_witness :
  result (Run (fakeRunner false) (preparedBuilder (exampleConfig "winrm" 0 0 0 ""))
            cancelledContext exampleUi exampleHook)
  = Return None None.
Proof.
  apply (Run_without_error_or_image_returns_nothing (fakeRunner false)
           (preparedBuilder (exampleConfig "winrm" 0 0 0 ""))
           cancelledContext exampleUi exampleHook);
    vm_compute; reflexivity.
Defined.

(** C2, as the claim has it, fails: an [ssh] build cancelled before its
    first step ends with neither key in the bag, and [Run] returns as if
    nothing were wrong, with no error and without a panic. *)
Lemma Run_cancelled_build_does_not_fail :
  finalState (fakeRunner false) (preparedBuilder (exampleConfig "ssh" 0 0 0 ""))
    cancelledContext exampleUi exampleHook !! "error" = None
  /\ finalState (fakeRunner false) (preparedBuilder (exampleConfig "ssh" 0 0 0 ""))
       cancelledContext exampleUi exampleHook !! "image_id" = None
  /\ result (Run (fakeRunner false) (preparedBuilder (exampleConfig "ssh" 0 0 0 ""))
               cancelledContext exampleUi exampleHook)
     = Return None None
  /\ failsLoudly
       (result (Run (fakeRunner false) (preparedBuilder (exampleConfig "ssh" 0 0 0 ""))
                  cancelledContext exampleUi exampleHook))
     = false.
Proof. repeat split; vm_compute; reflexivity. Qed.

(** ** A communicator type that is neither [ssh] nor [winrm] *)

(** C4, as the code has it.  Neither [Prepare] nor [Run] checks the
    communicator type.  The only errors [Prepare] reports on the communicator
    are those of the communicator's own [Prepare]; the errors of its own
    checks are the same whatever the communicator settings; it returns no
    error when the communicator reports none and none of its own checks
    fails, and an error when the communicator reports one.  For a type that
    is neither [ssh] nor [winrm], [Run] builds no step and starts the runner
    all the same, on the empty sequence and the state bag it has set up:
    what [Run] returns is read off the state the runner leaves, so that the
    error of a runner that fails at once is the error [Run] returns. *)
Theorem Run_unsupported_communicator_runs_no_step
    (E : Env) (unprepared : Builder) (raws : list (Raw E)) (c : Config)
    (runner_Run : multistep.BasicRunner Step -> multistep.Context ->
                  gmap string Value -> gmap string Value)
    (self : Builder) (ctx : multistep.Context) (ui : Ui) (hook : Hook) :
  (config_Decode E (config unprepared) raws = (c, None) ->
   (forall err, In (ErrCommunicator err) (collected E c)
                <-> In err (snd (Comm_Prepare E (Comm (assignDefaults E c)))))
   /\ (forall comm, List.filter ownError (collected E (set_Comm comm c))
                    = List.filter ownError (collected E c))
   /\ (snd (Comm_Prepare E (Comm (assignDefaults E c))) = [] ->
       List.filter ownError (collected E c) = [] ->
       retErr (snd (Prepare E unprepared raws)) = None)
   /\ (forall err, In err (snd (Comm_Prepare E (Comm (assignDefaults E c)))) ->
       retErr (snd (Prepare E unprepared raws)) <> None))
  /\ (communicator.CommType (Comm (config self)) <> "ssh" ->
      communicator.CommType (Comm (config self)) <> "winrm" ->
      stepsOf (Run runner_Run self ctx ui hook) = []
      /\ finalState runner_Run self ctx ui hook
         = runner_Run {| multistep.Steps := [] |} ctx (initialState self ui hook)
      /\ (forall other,
            (forall state, other {| multistep.Steps := [] |} ctx state
                           = runner_Run {| multistep.Steps := [] |} ctx state) ->
            Run other self ctx ui hook = Run runner_Run self ctx ui hook)
      /\ result (Run runner_Run self ctx ui hook)
         = match runner_Run {| multistep.Steps := [] |} ctx (initialState self ui hook)
                 !! "error" with
           | Some (VError err) => Return None (Some err)
           | Some _ => Panic "rawErr.(error)"
           | None =>
               match runner_Run {| multistep.Steps := [] |} ctx (initialState self ui hook)
                     !! "image_id" with
               | None => Return None None
               | Some (VString image_id) =>
                   Return (Some {| imageName := ImageName (config self);
                                   imageId := image_id;
                                   datacenterName := DatacenterName (config self);
                                   client := SoftlayerClient_New (Username (config self))
                                               (APIKey (config self)) |})
                          None
               | Some _ => Panic "state.Get(image_id).(string)"
               end
           end
      /\ (forall err,
            result (Run (failingRunner err) self ctx ui hook) = Return None (Some err))).
Proof.
  split.
  - intros Hdecode. split; [| split; [| split]].
    + intros err. apply (In_collected E c (ErrCommunicator err)).
    + apply collected_own_errors.
    + intros Hcomm Hown. apply (Prepare_accepts E unprepared raws c Hdecode).
      intros e Hin. destruct (ownError e) eqn:He.
      * assert (Hfiltered : In e (List.filter ownError (collected E c)))
          by (apply List.filter_In; auto).
        rewrite Hown in Hfiltered. destruct Hfiltered.
      * destruct e; try discriminate He.
        apply In_collected in Hin. cbn beta iota in Hin. rewrite Hcomm in Hin. destruct Hin.
    + intros err Hin.
      apply (Prepare_rejects E unprepared raws c (ErrCommunicator err) Hdecode).
      now apply In_collected.
  - intros Hssh Hwinrm.
    assert (Hsteps : buildSteps self = []).
    { unfold buildSteps.
      destruct (String.eqb_spec (communicator.CommType (Comm (config self))) "winrm");
        [contradiction |].
      destruct (String.eqb_spec (communicator.CommType (Comm (config self))) "ssh");
        [contradiction | reflexivity]. }
    rewrite Run_stepsOf. split; [exact Hsteps |].
    split; [unfold finalState; now rewrite Hsteps |].
    split; [intros other Hsame; apply Run_runs_the_steps_built; now rewrite Hsteps |].
    split.
    + rewrite Run_result. unfold finalState. rewrite Hsteps. reflexivity.
    + intros err. rewrite Run_result. unfold finalState, failingRunner, multistep.Put.
      now rewrite lookup_insert_eq.
Qed.

(** The communicator type [docker], which the communicator lets through,
    and the type [telnet], which it reports as invalid. *)
Lemma Run_unsupported_communicator_runs_no_step_witness :
  retErr (snd (Prepare exampleEnv newBuilder [exampleConfig "docker" 0 0 0 ""])) = None
  /\ retErr (snd (Prepare exampleEnv newBuilder [exampleConfig "telnet" 0 0 0 ""])) <> None
  /\ stepsOf (Run (fakeRunner false) (preparedBuilder (exampleConfig "docker" 0 0 0 ""))
                multistep.Background exampleUi exampleHook) = []
  /\ result (Run (failingRunner (errors_New "the runner was started"))
               (preparedBuilder (exampleConfig "docker" 0 0 0 ""))
               multistep.Background exampleUi exampleHook)
     = Return None (Some (errors_New "the runner was started")).
Proof.
  destruct (Run_unsupported_communicator_runs_no_step exampleEnv newBuilder
              [exampleConfig "docker" 0 0 0 ""] (exampleConfig "docker" 0 0 0 "")
              (fakeRunner false) (preparedBuilder (exampleConfig "docker" 0 0 0 ""))
              multistep.Background exampleUi exampleHook) as (Hprepare & Hrun).
  destruct (Run_unsupported_communicator_runs_no_step exampleEnv newBuilder
              [exampleConfig "telnet" 0 0 0 ""] (exampleConfig "telnet" 0 0 0 "")
              (fakeRunner false) (preparedBuilder (exampleConfig "telnet" 0 0 0 ""))
              multistep.Background exampleUi exampleHook) as (Htelnet & _).
  assert (Hssh : communicator.CommType
                   (Comm (config (preparedBuilder (exampleConfig "docker" 0 0 0 "")))) <> "ssh")
    by (vm_compute; discriminate).
  assert (Hwinrm : communicator.CommType
                     (Comm (config (preparedBuilder (exampleConfig "docker" 0 0 0 ""))))
                   <> "winrm")
    by (vm_compute; discriminate).
  destruct (Hrun Hssh Hwinrm) as (Hsteps & _ & _ & _ & Hstarted).
  split; [| split; [| split]].
  - destruct (Hprepare eq_refl) as (_ & _ & Haccepts & _).
    apply Haccepts; reflexivity.
  - destruct (Htelnet eq_refl) as (_ & _ & _ & Hrejects).
    apply (Hrejects (errors_New "Communicator type telnet is invalid")).
    vm_compute. left. reflexivity.
  - exact Hsteps.
  - apply Hstarted.
Defined.

(** C4, as the claim has it, fails: for the communicator type [none], on
    which the communicator's [Prepare] has nothing to report, [Prepare]
    returns no error, and [Run] starts the runner, on no step at all: with
    the runner of the steps it returns without an error, and with a runner
    that fails at once it returns the error of that runner. *)
Lemma Run_starts_the_runner_for_communicator_none :
  retErr (snd (Prepare exampleEnv newBuilder [exampleConfig "none" 0 0 0 ""])) = None
  /\ runner (self_after (Run (fakeRunner false) (preparedBuilder (exampleConfig "none" 0 0 0 ""))
                           multistep.Background exampleUi exampleHook))
     = Some {| multistep.Steps := [] |}
  /\ result (Run (fakeRunner false) (preparedBuilder (exampleConfig "none" 0 0 0 ""))
               multistep.Background exampleUi exampleHook)
     = Return None None
  /\ result (Run (failingRunner (errors_New "the runner was started"))
               (preparedBuilder (exampleConfig "none" 0 0 0 ""))
               multistep.Background exampleUi exampleHook)
     = Return None (Some (errors_New "the runner was started")).
Proof. repeat split; vm_compute; reflexivity. Qed.

(** * Further properties *)

(** ** [Prepare]: when it returns no error *)

Lemma when_nil {A : Type} (b : bool) (x : A) : when b x = [] <-> b = false.
Proof. destruct b; simpl; split; intros; congruence. Qed.

Lemma app_eq_nil_both {A : Type} (l1 l2 : list A) :
  (l1 ++ l2)%list = [] <-> l1 = [] /\ l2 = [].
Proof. destruct l1; simpl; split; [auto | tauto | discriminate | intros [? _]; discriminate]. Qed.

(** X1. [Prepare] returns no error exactly for the configurations that pass
    every check. *)
Theorem Prepare_accepts_exactly_the_valid
    (E : Env) (self : Builder) (raws : list (Raw E)) (c : Config) :
  config_Decode E (config self) raws = (c, None) ->
  (retErr (snd (Prepare E self raws)) = None <->
   snd (Comm_Prepare E (Comm (assignDefaults E c))) = []
   /\ ((InstanceFlavor c <> "" /\
        InstanceCpu c <= 0 /\ InstanceMemory c <= 0 /\ InstanceDiskCapacity c <= 0)
       \/ (InstanceFlavor c = "" /\
           (0 < InstanceCpu c \/ 0 < InstanceMemory c \/ 0 < InstanceDiskCapacity c)))
   /\ APIKey c <> "" /\ Username c <> "" /\ ImageName c <> ""
   /\ (ImageType c = "" \/ ImageType c = IMAGE_TYPE_STANDARD)
   /\ ((BaseImageId c <> "" /\ BaseOsCode c = "") \/ (BaseImageId c = "" /\ BaseOsCode c <> ""))
   /\ snd (time_ParseDuration E (timeoutString c)) = None).
Proof.
  intros Hdecode.
  rewrite (proj1 (Prepare_retErr E self raws c Hdecode)).
  rewrite collected_eq.
  rewrite !app_eq_nil_both. rewrite !when_nil.
  assert (Hmap : forall errs : list error, map ErrCommunicator errs = [] <-> errs = [])
    by (intros [|]; simpl; split; intros; congruence).
  rewrite Hmap.
  assert (Htimeout : match snd (time_ParseDuration E (timeoutString c)) with
                     | Some err => [ErrStateTimeout err]
                     | None => []
                     end = [] <-> snd (time_ParseDuration E (timeoutString c)) = None)
    by (destruct (snd _); split; intros; congruence).
  rewrite Htimeout.
  rewrite !andb_false_iff, !negb_false_iff, ?negb_true_iff, !String.eqb_eq, ?String.eqb_neq.
  assert (Hsizing : explicitSizing c = false <-> ~ explicitSizing c = true)
    by (destruct (explicitSizing c); split; congruence).
  assert (Hunset : InstanceCpu c <= 0 /\ InstanceMemory c <= 0 /\ InstanceDiskCapacity c <= 0
                   <-> ~ explicitSizing c = true)
    by (rewrite <- Hsizing; symmetry; apply explicitSizing_false).
  rewrite Hunset, <- explicitSizing_true, Hsizing.
  generalize (explicitSizing c = true) as sized. intros sized.
  assert (Htype : imageTypeOf c = IMAGE_TYPE_STANDARD
                  <-> ImageType c = "" \/ ImageType c = IMAGE_TYPE_STANDARD).
  { unfold imageTypeOf. destruct (String.eqb_spec (ImageType c) "") as [-> | Hgiven]; tauto. }
  rewrite Htype.
  assert (Hone : forall (P : Prop) (s : string),
            (~ P \/ s = "") /\ (P \/ s <> "") <-> (s <> "" /\ ~ P) \/ (s = "" /\ P))
    by (intros P s; destruct (String.eqb_spec s ""); tauto).
  assert (Hbase : forall s t : string,
            (s <> "" \/ t <> "") /\ (s = "" \/ t = "")
            <-> (s <> "" /\ t = "") \/ (s = "" /\ t <> ""))
    by (intros s t; destruct (String.eqb_spec s ""), (String.eqb_spec t ""); tauto).
  rewrite <- Hone, <- Hbase.
  split; intros Hall; decompose [and] Hall; repeat split; assumption.
Qed.

(** The [ssh] template with nothing wrong. *)
Lemma Prepare_accepts_exactly_the_valid_witness :
  retErr (snd (Prepare exampleEnv newBuilder [exampleConfig "ssh" 0 0 0 ""])) = None.
Proof.
  apply (Prepare_accepts_exactly_the_valid exampleEnv newBuilder
           [exampleConfig "ssh" 0 0 0 ""] (exampleConfig "ssh" 0 0 0 "") eq_refl).
  split; [reflexivity |].
  split; [left; split; [discriminate | simpl; lia] |].
  repeat split; try discriminate.
  - left. reflexivity.
  - right. split; [reflexivity | discriminate].
Defined.

(** ** [Prepare]: the configuration it leaves *)

(** The configuration [Prepare] leaves in the builder, for templates that
    decode without error. *)
Lemma Prepare_config (E : Env) (self : Builder) (raws : list (Raw E)) (c : Config) :
  config_Decode E (config self) raws = (c, None) ->
  config (fst (Prepare E self raws)) =
  set_StateTimeout (fst (time_ParseDuration E (timeoutString c)))
    (set_Comm (fst (Comm_Prepare E (Comm (assignDefaults E c)))) (assignDefaults E c)).
Proof.
  intros Hdecode. rewrite (Prepare_decoded E self raws c Hdecode). cbn [fst config].
  rewrite checkConfig_config. now rewrite (assignDefaults_eq E c) at 1.
Qed.

(** X2. When [config.Decode] fails, [Prepare] returns the decoder's error as
    it is and stops there: the configuration is the one the decoder left, no
    default is assigned, no check is made, and the runner is not touched. *)
Theorem Prepare_returns_the_decode_error
    (E : Env) (self : Builder) (raws : list (Raw E)) (c : Config) (err : error) :
  config_Decode E (config self) raws = (c, Some err) ->
  retErr (snd (Prepare E self raws)) = Some err
  /\ config (fst (Prepare E self raws)) = c
  /\ runner (fst (Prepare E self raws)) = runner self
  /\ parms (snd (Prepare E self raws)) = []
  /\ param2 (snd (Prepare E self raws)) = [].
Proof. intros Hdecode. unfold Prepare. rewrite Hdecode. repeat split. Qed.

(** A template with nothing set, and a decoder that fails: the one error is
    the decoder's, and the datacenter is still not set. *)
Lemma Prepare_returns_the_decode_error_witness :
  retErr (snd (Prepare undecodableEnv newBuilder [emptyConfig]))
  = Some (errors_New "1 error(s) decoding")
  /\ DatacenterName (config (fst (Prepare undecodableEnv newBuilder [emptyConfig]))) = "".
Proof.
  destruct (Prepare_returns_the_decode_error undecodableEnv newBuilder [emptyConfig]
              emptyConfig (errors_New "1 error(s) decoding") eq_refl)
    as (Herr & Hconfig & _).
  split; [exact Herr | now rewrite Hconfig].
Defined.

(** X3. After [Prepare], whether it returns an error of the checks or not,
    none of the fields that have a default is empty: the datacenter, the
    instance name and domain, the image description and type and the timeout
    string are set, and the network speed is not zero. *)
Theorem Prepare_leaves_no_default_unset
    (E : Env) (self : Builder) (raws : list (Raw E)) (c : Config) :
  config_Decode E (config self) raws = (c, None) ->
  DatacenterName (config (fst (Prepare E self raws))) <> ""
  /\ InstanceName (config (fst (Prepare E self raws))) <> ""
  /\ InstanceDomain (config (fst (Prepare E self raws))) <> ""
  /\ ImageDescription (config (fst (Prepare E self raws))) <> ""
  /\ ImageType (config (fst (Prepare E self raws))) <> ""
  /\ InstanceNetworkSpeed (config (fst (Prepare E self raws))) <> 0
  /\ RawStateTimeout (config (fst (Prepare E self raws))) <> "".
Proof.
  intros Hdecode. rewrite (Prepare_config E self raws c Hdecode).
  generalize (fst (Comm_Prepare E (Comm (assignDefaults E c)))) as comm. intros comm.
  rewrite (assignDefaults_eq E c). config_fields.
  unfold imageTypeOf, timeoutString, IMAGE_TYPE_STANDARD.
  repeat split.
  all: match goal with
       | |- (if String.eqb ?f "" then _ else _) <> _ =>
           destruct (String.eqb_spec f ""); [discriminate | assumption]
       | |- (if ?n =? 0 then _ else _) <> _ =>
           destruct (Z.eqb_spec n 0); [discriminate | assumption]
       end.
Qed.

(** The template with nothing set. *)
Lemma Prepare_leaves_no_default_unset_witness :
  DatacenterName (config (fst (Prepare exampleEnv newBuilder [emptyConfig]))) = "ams01"
  /\ InstanceNetworkSpeed (config (fst (Prepare exampleEnv newBuilder [emptyConfig]))) = 10
  /\ InstanceName (config (fst (Prepare exampleEnv newBuilder [emptyConfig]))) <> "".
Proof.
  destruct (Prepare_leaves_no_default_unset exampleEnv newBuilder [emptyConfig] emptyConfig
              eq_refl) as (_ & Hname & _).
  split; [vm_compute; reflexivity | split; [vm_compute; reflexivity | exact Hname]].
Defined.

(** X4. [Prepare] overwrites nothing the template has set.  The fields
    without a default are the decoded ones; a field with a default keeps a
    value that is not empty (not zero, for the network speed).  Only the
    communicator settings, which are what the communicator's [Prepare] made
    of them, and [StateTimeout] are written regardless. *)
Theorem Prepare_keeps_what_is_set
    (E : Env) (self : Builder) (raws : list (Raw E)) (c : Config) :
  config_Decode E (config self) raws = (c, None) ->
  let c' := config (fst (Prepare E self raws)) in
  (Username c' = Username c /\ APIKey c' = APIKey c /\ ImageName c' = ImageName c
   /\ BaseImageId c' = BaseImageId c /\ BaseOsCode c' = BaseOsCode c
   /\ UploadToDatacenters c' = UploadToDatacenters c
   /\ InstanceFlavor c' = InstanceFlavor c
   /\ InstanceLocalDiskFlag c' = InstanceLocalDiskFlag c
   /\ InstanceCpu c' = InstanceCpu c /\ InstanceMemory c' = InstanceMemory c
   /\ InstanceDiskCapacity c' = InstanceDiskCapacity c
   /\ PublicVlanId c' = PublicVlanId c
   /\ ProvisioningSshKeyId c' = ProvisioningSshKeyId c
   /\ InstancePublicSecurityGroupIds c' = InstancePublicSecurityGroupIds c)
  /\ (DatacenterName c <> "" -> DatacenterName c' = DatacenterName c)
  /\ (InstanceName c <> "" -> InstanceName c' = InstanceName c)
  /\ (InstanceDomain c <> "" -> InstanceDomain c' = InstanceDomain c)
  /\ (ImageDescription c <> "" -> ImageDescription c' = ImageDescription c)
  /\ (ImageType c <> "" -> ImageType c' = ImageType c)
  /\ (InstanceNetworkSpeed c <> 0 -> InstanceNetworkSpeed c' = InstanceNetworkSpeed c)
  /\ (RawStateTimeout c <> "" -> RawStateTimeout c' = RawStateTimeout c)
  /\ Comm c' = fst (Comm_Prepare E (Comm (assignDefaults E c)))
  /\ runner (fst (Prepare E self raws)) = runner self.
Proof.
  intros Hdecode c'. subst c'. rewrite (Prepare_config E self raws c Hdecode).
  rewrite (Prepare_decoded E self raws c Hdecode). cbn [fst runner].
  set (comm := fst (Comm_Prepare E (Comm (assignDefaults E c)))). clearbody comm.
  rewrite (assignDefaults_eq E c). config_fields.
  unfold imageTypeOf, timeoutString, IMAGE_TYPE_STANDARD.
  split; [repeat split |].
  repeat split.
  all: try intros Hset;
    try match goal with
    | |- (if String.eqb ?f "" then _ else _) = _ =>
        destruct (String.eqb_spec f ""); [contradiction | reflexivity]
    | |- (if ?n =? 0 then _ else _) = _ =>
        destruct (Z.eqb_spec n 0); [contradiction | reflexivity]
    end.
Qed.

(** A template that names the datacenter [dal10]. *)
Lemma Prepare_keeps_what_is_set_witness :
  DatacenterName
    (config (fst (Prepare exampleEnv newBuilder
                    [set_DatacenterName "dal10" (exampleConfig "ssh" 0 0 0 "")])))
  = "dal10"
  /\ Username
       (config (fst (Prepare exampleEnv newBuilder
                       [set_DatacenterName "dal10" (exampleConfig "ssh" 0 0 0 "")])))
     = "user".
Proof.
  destruct (Prepare_keeps_what_is_set exampleEnv newBuilder
              [set_DatacenterName "dal10" (exampleConfig "ssh" 0 0 0 "")]
              (set_DatacenterName "dal10" (exampleConfig "ssh" 0 0 0 "")) eq_refl)
    as ((Huser & _) & Hdatacenter & _).
  split; [apply Hdatacenter; discriminate | exact Huser].
Defined.

(** X5. The block of defaults is stable: assigning the defaults to a
    configuration that already went through it changes nothing. *)
Theorem assignDefaults_twice (E : Env) (c : Config) :
  assignDefaults E (assignDefaults E c) = assignDefaults E c.
Proof.
  rewrite (assignDefaults_eq E (assignDefaults E c)).
  rewrite !(assignDefaults_eq E c). config_fields.
  unfold imageTypeOf, timeoutString, IMAGE_TYPE_STANDARD. config_fields.
  destruct c as [[ty su sk wu] ? ? ? idesc ity ? ? ? iname idom ? ? ? ? ? dcn ? speed ? ? raw ?].
  config_fields.
  assert (Hstring : forall (f d : string), d <> "" ->
            (if String.eqb (if String.eqb f "" then d else f) "" then d
             else if String.eqb f "" then d else f)
            = if String.eqb f "" then d else f).
  { intros f d Hd. destruct (String.eqb_spec f "") as [-> | Hf].
    - now destruct (String.eqb_spec d "").
    - now destruct (String.eqb_spec f ""). }
  rewrite !Hstring by discriminate.
  assert (Hspeed : (if (if speed =? 0 then 10 else speed) =? 0 then 10
                    else if speed =? 0 then 10 else speed)
                   = if speed =? 0 then 10 else speed).
  { destruct (Z.eqb_spec speed 0) as [-> | Hs]; [reflexivity |].
    now destruct (Z.eqb_spec speed 0). }
  rewrite Hspeed.
  f_equal.
  destruct (String.eqb_spec ty "winrm") as [-> | Hwinrm].
  - destruct (String.eqb_spec wu "") as [-> | Hwu]; cbn.
    + reflexivity.
    + now destruct (String.eqb_spec wu "").
  - destruct (String.eqb_spec ty "ssh") as [-> | Hssh].
    + destruct (String.eqb_spec su "") as [-> | Hsu]; cbn.
      * reflexivity.
      * now destruct (String.eqb_spec su "").
    + cbn. destruct (String.eqb_spec ty "winrm"); [contradiction |].
      now destruct (String.eqb_spec ty "ssh").
Qed.

(** ** [Prepare]: the communicator's user name *)

(** X6. The default user name depends on the communicator type as the
    template gives it.  For [ssh] the communicator's [Prepare] is handed a
    user name that is not empty ([root] unless the template names one), for
    [winrm] likewise ([Administrator]); a name the template gives is never
    replaced; for any other type, the empty one included, the settings are
    handed over as decoded. *)
Theorem Prepare_defaults_the_user_of_an_explicit_type
    (E : Env) (self : Builder) (raws : list (Raw E)) (c : Config) :
  config_Decode E (config self) raws = (c, None) ->
  exists comm : communicator.Config,
    Comm (config (fst (Prepare E self raws))) = fst (Comm_Prepare E comm)
    /\ (forall err, In (ErrCommunicator err) (collected E c)
                    <-> In err (snd (Comm_Prepare E comm)))
    /\ communicator.CommType comm = communicator.CommType (Comm c)
    /\ communicator.SSHPrivateKey comm = communicator.SSHPrivateKey (Comm c)
    /\ (communicator.CommType (Comm c) = "ssh" ->
        communicator.SSHUsername comm <> ""
        /\ (communicator.SSHUsername (Comm c) = "" -> communicator.SSHUsername comm = "root")
        /\ (communicator.SSHUsername (Comm c) <> "" -> comm = Comm c)
        /\ communicator.WinRMUser comm = communicator.WinRMUser (Comm c))
    /\ (communicator.CommType (Comm c) = "winrm" ->
        communicator.WinRMUser comm <> ""
        /\ (communicator.WinRMUser (Comm c) = "" ->
            communicator.WinRMUser comm = "Administrator")
        /\ (communicator.WinRMUser (Comm c) <> "" -> comm = Comm c)
        /\ communicator.SSHUsername comm = communicator.SSHUsername (Comm c))
    /\ (communicator.CommType (Comm c) <> "ssh" ->
        communicator.CommType (Comm c) <> "winrm" -> comm = Comm c).
Proof.
  intros Hdecode. exists (Comm (assignDefaults E c)).
  split; [now rewrite (Prepare_config E self raws c Hdecode) |].
  split; [intros err; apply (In_collected E c (ErrCommunicator err)) |].
  rewrite (assignDefaults_eq E c). config_fields.
  destruct (Comm c) as [ty su sk wu]. config_fields.
  destruct (String.eqb_spec ty "winrm") as [-> | Hwinrm];
    [| destruct (String.eqb_spec ty "ssh") as [-> | Hssh]].
  - destruct (String.eqb_spec wu "") as [-> | Hwu]; cbn; repeat split;
      intros; try congruence; try discriminate.
  - destruct (String.eqb_spec su "") as [-> | Hsu]; cbn; repeat split;
      intros; try congruence; try discriminate.
  - repeat split; intros; congruence.
Qed.

(** An [ssh] template without a user name; a template without a type. *)
Lemma Prepare_defaults_the_user_of_an_explicit_type_witness :
  (exists comm,
     Comm (config (fst (Prepare exampleEnv newBuilder [exampleConfig "ssh" 0 0 0 ""])))
     = fst (communicator.Prepare comm)
     /\ communicator.SSHUsername comm = "root")
  /\ (exists comm,
        Comm (config (fst (Prepare exampleEnv newBuilder [exampleConfig "" 0 0 0 ""])))
        = fst (communicator.Prepare comm)
        /\ comm = exampleComm "").
Proof.
  destruct (Prepare_defaults_the_user_of_an_explicit_type exampleEnv newBuilder
              [exampleConfig "ssh" 0 0 0 ""] (exampleConfig "ssh" 0 0 0 "") eq_refl)
    as (comm1 & Hcomm1 & _ & _ & _ & Hssh & _).
  destruct (Prepare_defaults_the_user_of_an_explicit_type exampleEnv newBuilder
              [exampleConfig "" 0 0 0 ""] (exampleConfig "" 0 0 0 "") eq_refl)
    as (comm2 & Hcomm2 & _ & _ & _ & _ & _ & Hother).
  split.
  - exists comm1. split; [exact Hcomm1 |].
    destruct Hssh as (_ & Hroot & _); [reflexivity |]. apply Hroot. reflexivity.
  - exists comm2. split; [exact Hcomm2 |]. apply Hother; discriminate.
Defined.

(** ** [Prepare]: the order and the number of the errors *)

(** X7. [Prepare] collects the errors in a fixed order: first those of the
    communicator, as its [Prepare] returned them, then its own, in the order
    of the checks, at most one for each check. *)
Theorem Prepare_collects_in_the_order_of_the_checks (E : Env) (c : Config) :
  exists own : list PrepareError,
    collected E c
    = (map ErrCommunicator (snd (Comm_Prepare E (Comm (assignDefaults E c)))) ++ own)%list
    /\ Forall (fun e => ownError e = true) own
    /\ StronglySorted (fun a b => (checkOrder a < checkOrder b)%nat) own.
Proof.
  rewrite collected_eq. eexists. split; [reflexivity |].
  destruct (snd (time_ParseDuration E (timeoutString c))) as [perr|];
    destruct (explicitSizing c), (String.eqb (InstanceFlavor c) ""),
      (String.eqb (APIKey c) ""), (String.eqb (Username c) ""),
      (String.eqb (ImageName c) ""), (String.eqb (imageTypeOf c) IMAGE_TYPE_STANDARD),
      (String.eqb (BaseImageId c) ""), (String.eqb (BaseOsCode c) "");
    cbn [when negb andb app];
    (split; [repeat constructor | repeat (constructor; cbn [checkOrder]; try lia)]).
Qed.

(** X8. The two errors of the sizing check never come together, nor do the
    two errors on the base image; [Prepare] collects at most seven errors of
    its own. *)
Theorem Prepare_own_errors_are_exclusive_and_few (E : Env) (c : Config) :
  ~ (In ErrFlavorWithSizing (collected E c) /\ In ErrFlavorRequired (collected E c))
  /\ ~ (In ErrBaseImageRequired (collected E c) /\ In ErrBaseImageOnlyOne (collected E c))
  /\ (length (List.filter ownError (collected E c)) <= 7)%nat.
Proof.
  split; [| split].
  - rewrite !In_collected. intros [[_ Hset] [_ Hempty]]. contradiction.
  - rewrite !In_collected. intros [[Hempty _] [Hset _]]. contradiction.
  - rewrite collected_eq, List.filter_app, filter_ownError_communicator.
    destruct (snd (time_ParseDuration E (timeoutString c))) as [perr|];
      destruct (explicitSizing c), (String.eqb (InstanceFlavor c) ""),
        (String.eqb (APIKey c) ""), (String.eqb (Username c) ""),
        (String.eqb (ImageName c) ""), (String.eqb (imageTypeOf c) IMAGE_TYPE_STANDARD),
        (String.eqb (BaseImageId c) ""), (String.eqb (BaseOsCode c) "");
      cbn; lia.
Qed.

Lemma occursIn_tail (a b s : string) : occursIn (a +:+ b) s -> occursIn b s.
Proof.
  intros (before & after & ->). exists (before +:+ a), after.
  now rewrite !append_assoc.
Qed.

(** ** [Prepare]: the image type *)

(** X9. [Prepare] accepts the image type [standard], in these letters, and
    an empty one, which stands for it; for any other type it collects an
    error, and the error it returns names the type. *)
Theorem Prepare_wants_the_standard_image_type
    (E : Env) (self : Builder) (raws : list (Raw E)) (c : Config) :
  config_Decode E (config self) raws = (c, None) ->
  (forall image_type,
     In (ErrImageType image_type) (collected E c)
     <-> image_type = ImageType c /\ ImageType c <> "" /\ ImageType c <> "standard")
  /\ (ImageType c <> "" -> ImageType c <> "standard" ->
      exists text,
        retErr (snd (Prepare E self raws)) = Some (errors_New text)
        /\ occursIn ("Unknown image_type '" +:+ ImageType c +:+ "'. Must be 'standard'.") text).
Proof.
  intros Hdecode.
  assert (Hin : forall image_type,
            In (ErrImageType image_type) (collected E c)
            <-> image_type = ImageType c /\ ImageType c <> "" /\ ImageType c <> "standard").
  { intros image_type. rewrite In_collected. unfold imageTypeOf, IMAGE_TYPE_STANDARD.
    destruct (String.eqb_spec (ImageType c) "") as [Hempty | Hgiven].
    - split; [intros [-> Hne]; now destruct Hne | intros (_ & Hne & _); contradiction].
    - intuition congruence. }
  split; [exact Hin |].
  intros Hgiven Hother.
  destruct (proj2 (Prepare_retErr E self raws c Hdecode) (ErrImageType (ImageType c)))
    as (text & Hreturned & Hoccurs).
  { apply Hin. auto. }
  exists text. split; [exact Hreturned |].
  exact (occursIn_tail "* " _ text Hoccurs).
Qed.

(** The image type [flex], and [Standard] with a capital. *)
Lemma Prepare_wants_the_standard_image_type_witness :
  In (ErrImageType "flex") (collected exampleEnv (set_ImageType "flex" (exampleConfig "ssh" 0 0 0 "")))
  /\ In (ErrImageType "Standard")
       (collected exampleEnv (set_ImageType "Standard" (exampleConfig "ssh" 0 0 0 ""))).
Proof.
  split.
  - apply (Prepare_wants_the_standard_image_type exampleEnv newBuilder
             [set_ImageType "flex" (exampleConfig "ssh" 0 0 0 "")]
             (set_ImageType "flex" (exampleConfig "ssh" 0 0 0 "")) eq_refl).
    repeat split; discriminate.
  - apply (Prepare_wants_the_standard_image_type exampleEnv newBuilder
             [set_ImageType "Standard" (exampleConfig "ssh" 0 0 0 "")]
             (set_ImageType "Standard" (exampleConfig "ssh" 0 0 0 "")) eq_refl).
    repeat split; discriminate.
Defined.

(** ** [Prepare]: the errors of others *)

(** X10. The errors that come from outside are carried as they are: the
    text of every error of the communicator, and the text of the parser's
    error after the words [Failed parsing state_timeout: ], occur in the text
    of the error [Prepare] returns. *)
Theorem Prepare_carries_the_errors_of_others
    (E : Env) (self : Builder) (raws : list (Raw E)) (c : Config) :
  config_Decode E (config self) raws = (c, None) ->
  (forall err, In err (snd (Comm_Prepare E (Comm (assignDefaults E c)))) ->
     exists text, retErr (snd (Prepare E self raws)) = Some (errors_New text)
                  /\ occursIn (Error err) text)
  /\ (forall err, snd (time_ParseDuration E (timeoutString c)) = Some err ->
      exists text, retErr (snd (Prepare E self raws)) = Some (errors_New text)
                   /\ occursIn ("Failed parsing state_timeout: " +:+ Error err) text).
Proof.
  intros Hdecode.
  assert (Hcarried : forall e, In e (collected E c) ->
            exists text, retErr (snd (Prepare E self raws)) = Some (errors_New text)
                         /\ occursIn (Error e) text).
  { intros e Hin.
    destruct (proj2 (Prepare_retErr E self raws c Hdecode) e Hin)
      as (text & Hreturned & Hoccurs).
    exists text. split; [exact Hreturned | exact (occursIn_tail "* " _ text Hoccurs)]. }
  split.
  - intros err Hin. apply (Hcarried (ErrCommunicator err)). now apply In_collected.
  - intros err Hparse. apply (Hcarried (ErrStateTimeout err)). now apply In_collected.
Qed.

(** A timeout without a unit, and a communicator type the communicator does
    not know. *)
Lemma Prepare_carries_the_errors_of_others_witness :
  (exists text,
     retErr (snd (Prepare exampleEnv newBuilder [exampleConfig "telnet" 0 0 0 ""]))
     = Some (errors_New text)
     /\ occursIn "Communicator type telnet is invalid" text)
  /\ (exists text,
        retErr (snd (Prepare exampleEnv newBuilder [exampleConfig "ssh" 0 0 0 "10"]))
        = Some (errors_New text)
        /\ occursIn ("Failed parsing state_timeout: time: missing unit in duration "
                     +:+ dquote +:+ "10" +:+ dquote) text).
Proof.
  split.
  - destruct (Prepare_carries_the_errors_of_others exampleEnv newBuilder
                [exampleConfig "telnet" 0 0 0 ""] (exampleConfig "telnet" 0 0 0 "") eq_refl)
      as (Hcomm & _).
    apply (Hcomm (errors_New "Communicator type telnet is invalid")).
    vm_compute. left. reflexivity.
  - destruct (Prepare_carries_the_errors_of_others exampleEnv newBuilder
                [exampleConfig "ssh" 0 0 0 "10"] (exampleConfig "ssh" 0 0 0 "10") eq_refl)
      as (_ & Hparse).
    apply (Hparse (errors_New ("time: missing unit in duration "
                               +:+ dquote +:+ "10" +:+ dquote))).
    vm_compute. reflexivity.
Defined.

(** ** [Run]: the state bag the runner starts from *)

(** X11. [Run] hands the runner a fresh bag with four entries and no other:
    the configuration of the builder, a client made of its two credentials,
    the hook and the ui.  There is no [error] and no [image_id] in it, so
    what [Run] finds under these keys afterwards is the runner's doing; and
    [Run] depends on the runner only through what it makes of this bag. *)
Theorem Run_starts_the_runner_on_a_fresh_bag
    (runner_Run : multistep.BasicRunner Step -> multistep.Context ->
                  gmap string Value -> gmap string Value)
    (self : Builder) (ctx : multistep.Context) (ui : Ui) (hook : Hook) :
  dom (initialState self ui hook) = ({["config"; "client"; "hook"; "ui"]} : gset string)
  /\ initialState self ui hook !! "config" = Some (VConfig (config self))
  /\ initialState self ui hook !! "client"
     = Some (VClient (SoftlayerClient_New (Username (config self)) (APIKey (config self))))
  /\ initialState self ui hook !! "hook" = Some (VHook hook)
  /\ initialState self ui hook !! "ui" = Some (VUi ui)
  /\ initialState self ui hook !! "error" = None
  /\ initialState self ui hook !! "image_id" = None
  /\ (forall other,
        other {| multistep.Steps := buildSteps self |} ctx (initialState self ui hook)
        = runner_Run {| multistep.Steps := buildSteps self |} ctx (initialState self ui hook) ->
        Run other self ctx ui hook = Run runner_Run self ctx ui hook).
Proof.
  split.
  - unfold initialState, multistep.Put. rewrite !dom_insert_L, dom_empty_L. set_solver.
  - repeat split; try reflexivity.
    intros other Hsame. unfold Run. now rewrite Hsame.
Qed.

(** The runner that does nothing: [Run] finds neither key. *)
Lemma Run_starts_the_runner_on_a_fresh_bag_witness :
  Run idleRunner (preparedBuilder (exampleConfig "ssh" 0 0 0 ""))
    multistep.Background exampleUi exampleHook
  = Run (fun _ _ _ => initialState (preparedBuilder (exampleConfig "ssh" 0 0 0 ""))
                        exampleUi exampleHook)
      (preparedBuilder (exampleConfig "ssh" 0 0 0 "")) multistep.Background exampleUi exampleHook.
Proof.
  apply (Run_starts_the_runner_on_a_fresh_bag
           (fun _ _ _ => initialState (preparedBuilder (exampleConfig "ssh" 0 0 0 ""))
                           exampleUi exampleHook)
           (preparedBuilder (exampleConfig "ssh" 0 0 0 ""))
           multistep.Background exampleUi exampleHook).
  reflexivity.
Defined.

(** ** [Run]: what it returns, read backwards *)

Section Outcome.
Variable runner_Run :
  multistep.BasicRunner Step -> multistep.Context -> gmap string Value -> gmap string Value.
Variable self : Builder.
Variable ctx : multistep.Context.
Variable ui : Ui.
Variable hook : Hook.

(** X12. What [Run] returns tells what the runner left in the bag.  [Run]
    returns an artifact only when there is no [error] and [image_id] holds a
    string, and the artifact carries that string; it returns an error only
    when that error is under [error]; it returns neither, and logs its one
    line, only when both keys are missing; it never returns both. *)
Theorem Run_result_tells_the_final_state :
  (forall artifact err,
     result (Run runner_Run self ctx ui hook) = Return (Some artifact) err ->
     err = None
     /\ finalState runner_Run self ctx ui hook !! "error" = None
     /\ finalState runner_Run self ctx ui hook !! "image_id"
        = Some (VString (imageId artifact)))
  /\ (forall err,
        result (Run runner_Run self ctx ui hook) = Return None (Some err) ->
        finalState runner_Run self ctx ui hook !! "error" = Some (VError err))
  /\ (result (Run runner_Run self ctx ui hook) = Return None None ->
      finalState runner_Run self ctx ui hook !! "error" = None
      /\ finalState runner_Run self ctx ui hook !! "image_id" = None)
  /\ (logged (Run runner_Run self ctx ui hook) <> [] <->
      result (Run runner_Run self ctx ui hook) = Return None None).
Proof.
  rewrite Run_result, Run_logged.
  destruct (finalState runner_Run self ctx ui hook !! "error") as [[]|];
    [..| destruct (finalState runner_Run self ctx ui hook !! "image_id") as [[]|]].
  all: repeat split; try discriminate; try congruence.
  all: try (intros artifact err [= <- <-]; repeat split).
  all: try (intros err' [= <-]; reflexivity).
  all: try (intros H; now destruct H).
  match goal with H : Return _ _ = Return _ _ |- _ => injection H as <- _ end.
  reflexivity.
Qed.

(** X13. [Run] asserts the types of what it reads from the bag without a
    test: it panics exactly when [error] holds something that is not an
    error, or when, without an [error], [image_id] holds something that is
    not a string. *)
Theorem Run_panics_on_a_value_of_another_type :
  (exists assertion, result (Run runner_Run self ctx ui hook) = Panic assertion)
  <-> (exists v, finalState runner_Run self ctx ui hook !! "error" = Some v
                 /\ forall err, v <> VError err)
      \/ (finalState runner_Run self ctx ui hook !! "error" = None
          /\ exists v, finalState runner_Run self ctx ui hook !! "image_id" = Some v
                       /\ forall s, v <> VString s).
Proof.
  rewrite Run_result.
  destruct (finalState runner_Run self ctx ui hook !! "error") as [v|] eqn:Herror.
  - destruct v; split;
      try (intros _; left; eexists; split; [reflexivity | discriminate]);
      try (intros _; eexists; reflexivity).
    + intros [assertion H]; discriminate H.
    + intros [(v & [= <-] & Hnot) | [H _]]; [now destruct (Hnot err) | discriminate H].
  - destruct (finalState runner_Run self ctx ui hook !! "image_id") as [v|] eqn:Himage.
    + destruct v; split;
        try (intros _; right; split; [reflexivity |];
             eexists; split; [reflexivity | discriminate]);
        try (intros _; eexists; reflexivity).
      * intros [assertion H]; discriminate H.
      * intros [(v & H & _) | (_ & v & [= <-] & Hnot)];
          [discriminate H | now destruct (Hnot s)].
    + split.
      * intros [assertion H]; discriminate H.
      * intros [(v & H & _) | (_ & v & H & _)]; discriminate H.
Qed.

(** X14. [Run] reads the configuration of the builder and nothing else of
    it: the configuration is the same afterwards, the runner the builder
    held is replaced, and a builder with the same configuration, the one
    [Run] left behind included, gives the same outcome. *)
Theorem Run_depends_on_the_configuration_alone :
  config (self_after (Run runner_Run self ctx ui hook)) = config self
  /\ (forall other : Builder,
        config other = config self ->
        Run runner_Run other ctx ui hook = Run runner_Run self ctx ui hook)
  /\ Run runner_Run (self_after (Run runner_Run self ctx ui hook)) ctx ui hook
     = Run runner_Run self ctx ui hook.
Proof.
  assert (Hsame : forall other : Builder,
            config other = config self ->
            Run runner_Run other ctx ui hook = Run runner_Run self ctx ui hook).
  { intros [c r] Hconfig. destruct self as [c0 r0]. cbn in Hconfig. subst c0. reflexivity. }
  split; [apply Run_config | split; [exact Hsame |]].
  apply Hsame, Run_config.
Qed.

End Outcome.

(** A runner that leaves a string under [error]. *)
Lemma Run_panics_on_a_value_of_another_type_witness :
  exists assertion,
    result (Run mistypingRunner (preparedBuilder (exampleConfig "ssh" 0 0 0 ""))
              multistep.Background exampleUi exampleHook)
    = Panic assertion.
Proof.
  apply (Run_panics_on_a_value_of_another_type mistypingRunner
           (preparedBuilder (exampleConfig "ssh" 0 0 0 ""))
           multistep.Background exampleUi exampleHook).
  left. exists (VString "instance failed"). split; [vm_compute; reflexivity | discriminate].
Defined.

(** An [ssh] build against the fake provider. *)
Lemma Run_result_tells_the_final_state_witness :
  finalState (fakeRunner false) (preparedBuilder (exampleConfig "ssh" 0 0 0 ""))
    multistep.Background exampleUi exampleHook !! "image_id"
  = Some (VString "1234567").
Proof.
  destruct (Run_result_tells_the_final_state (fakeRunner false)
              (preparedBuilder (exampleConfig "ssh" 0 0 0 ""))
              multistep.Background exampleUi exampleHook) as (Hartifact & _).
  destruct (Hartifact
              {| imageName := "my-image"; imageId := "1234567"; datacenterName := "ams01";
                 client := SoftlayerClient_New "user" "key" |} None) as (_ & _ & Himage).
  - vm_compute. reflexivity.
  - exact Himage.
Defined.

(** A builder that holds the runner of an earlier build. *)
Lemma Run_depends_on_the_configuration_alone_witness :
  Run (fakeRunner false)
    {| config := exampleConfig "winrm" 0 0 0 "";
       runner := Some {| multistep.Steps := [stepCaptureImage] |} |}
    multistep.Background exampleUi exampleHook
  = Run (fakeRunner false) {| config := exampleConfig "winrm" 0 0 0 ""; runner := None |}
      multistep.Background exampleUi exampleHook.
Proof.
  destruct (Run_depends_on_the_configuration_alone (fakeRunner false)
              {| config := exampleConfig "winrm" 0 0 0 ""; runner := None |}
              multistep.Background exampleUi exampleHook) as (_ & Hsame & _).
  exact (Hsame {| config := exampleConfig "winrm" 0 0 0 "";
                  runner := Some {| multistep.Steps := [stepCaptureImage] |} |} eq_refl).
Defined.

(** ** [Prepare], then [Run] *)

(** X15. The artifact of a build that [Prepare] accepted is complete: when
    [Prepare] returns no error and [Run], on the builder it left, returns an
    artifact, the image name is the template's and is not empty, the
    datacenter name is the template's, or [ams01] if it gives none, and the
    client holds the template's user name and key, both not empty. *)
Theorem Run_after_Prepare_returns_a_complete_artifact
    (E : Env) (self : Builder) (raws : list (Raw E)) (c : Config)
    (runner_Run : multistep.BasicRunner Step -> multistep.Context ->
                  gmap string Value -> gmap string Value)
    (ctx : multistep.Context) (ui : Ui) (hook : Hook) (artifact : Artifact) (err : option error) :
  config_Decode E (config self) raws = (c, None) ->
  retErr (snd (Prepare E self raws)) = None ->
  result (Run runner_Run (fst (Prepare E self raws)) ctx ui hook) = Return (Some artifact) err ->
  imageName artifact = ImageName c /\ imageName artifact <> ""
  /\ datacenterName artifact = (if String.eqb (DatacenterName c) "" then "ams01"
                                else DatacenterName c)
  /\ datacenterName artifact <> ""
  /\ client artifact = SoftlayerClient_New (Username c) (APIKey c)
  /\ Username c <> "" /\ APIKey c <> "".
Proof.
  intros Hdecode Haccepted Hreturned.
  assert (Hvalid : APIKey c <> "" /\ Username c <> "" /\ ImageName c <> "").
  { apply (proj1 (Prepare_retErr E self raws c Hdecode)) in Haccepted.
    repeat split; intros Hempty.
    - assert (Hin : In ErrAPIKey (collected E c)) by (now apply In_collected).
      rewrite Haccepted in Hin. destruct Hin.
    - assert (Hin : In ErrUsername (collected E c)) by (now apply In_collected).
      rewrite Haccepted in Hin. destruct Hin.
    - assert (Hin : In ErrImageName (collected E c)) by (now apply In_collected).
      rewrite Haccepted in Hin. destruct Hin. }
  destruct Hvalid as (Hkey & Huser & Hname).
  rewrite Run_result in Hreturned.
  destruct (finalState runner_Run _ ctx ui hook !! "error") as [[]|]; try discriminate.
  destruct (finalState runner_Run _ ctx ui hook !! "image_id") as [[]|]; try discriminate.
  injection Hreturned as <- _.
  cbn [imageName datacenterName client].
  rewrite (Prepare_decoded E self raws c Hdecode). cbn [fst config].
  rewrite checkConfig_config.
  generalize (fst (Comm_Prepare E (Comm (assignDefaults E c)))) as comm. intros comm.
  generalize (fst (time_ParseDuration E (RawStateTimeout (assignDefaults E c)))) as d.
  intros d. rewrite (assignDefaults_eq E c). config_fields.
  repeat split; try assumption.
  destruct (String.eqb_spec (DatacenterName c) ""); [discriminate | assumption].
Qed.

(** An [ssh] build against the fake provider, for a template that names no
    datacenter. *)
Lemma Run_after_Prepare_returns_a_complete_artifact_witness :
  datacenterName
    {| imageName := "my-image"; imageId := "1234567"; datacenterName := "ams01";
       client := SoftlayerClient_New "user" "key" |}
  <> "".
Proof.
  destruct (Run_after_Prepare_returns_a_complete_artifact exampleEnv newBuilder
              [exampleConfig "ssh" 0 0 0 ""] (exampleConfig "ssh" 0 0 0 "") (fakeRunner false)
              multistep.Background exampleUi exampleHook
              {| imageName := "my-image"; imageId := "1234567"; datacenterName := "ams01";
                 client := SoftlayerClient_New "user" "key" |} None eq_refl)
    as (_ & _ & _ & Hdatacenter & _).
  - vm_compute. reflexivity.
  - vm_compute. reflexivity.
  - exact Hdatacenter.
Defined.

(** ** [Run]: the shape of every step sequence *)

(** X16. [Run] builds steps for [ssh] and [winrm] and for no other type, and
    the step that creates a key for [ssh] alone.  Every sequence it builds
    creates the instance once and before it waits, connects once, with the
    builder's communicator settings, and ends with the provisioning and then
    the capture of the image. *)
Theorem Run_step_sequences_share_a_shape
    (runner_Run : multistep.BasicRunner Step -> multistep.Context ->
                  gmap string Value -> gmap string Value)
    (self : Builder) (ctx : multistep.Context) (ui : Ui) (hook : Hook) :
  let steps := stepsOf (Run runner_Run self ctx ui hook) in
  (steps = [] <-> communicator.CommType (Comm (config self)) <> "ssh"
                  /\ communicator.CommType (Comm (config self)) <> "winrm")
  /\ (In CreateSshKey (map step_name steps)
      <-> communicator.CommType (Comm (config self)) = "ssh")
  /\ (forall key, In (stepCreateSshKey key) steps ->
        key = communicator.SSHPrivateKey (Comm (config self)))
  /\ (forall comm host ssh winrm, In (StepConnect comm host ssh winrm) steps ->
        comm = Comm (config self))
  /\ (steps <> [] ->
      length steps = 7%nat
      /\ count_occ StepName_eq_dec (map step_name steps) CreateInstance = 1%nat
      /\ count_occ StepName_eq_dec (map step_name steps) Connect = 1%nat
      /\ count_occ StepName_eq_dec (map step_name steps) CaptureImage = 1%nat
      /\ (exists before, steps = (before ++ [StepProvision; stepCaptureImage])%list)
      /\ (exists before after,
            steps = (before ++ stepCreateInstance :: stepWaitforInstance :: after)%list
            /\ ~ In WaitforInstance (map step_name before))).
Proof.
  intros steps. subst steps. rewrite Run_stepsOf. unfold buildSteps.
  destruct (String.eqb_spec (communicator.CommType (Comm (config self))) "winrm")
    as [Hwinrm | Hwinrm];
    [| destruct (String.eqb_spec (communicator.CommType (Comm (config self))) "ssh")
         as [Hssh | Hssh]].
  - rewrite Hwinrm. repeat split; try discriminate; try congruence.
    + intros [? ?]; congruence.
    + cbn. intros [Hin | [Hin | [Hin | [Hin | [Hin | [Hin | [Hin | []]]]]]]]; discriminate Hin.
    + intros key. cbn. intros [Hin | [Hin | [Hin | [Hin | [Hin | [Hin | [Hin | []]]]]]]]; discriminate Hin.
    + intros comm host ssh winrm. cbn.
      intros [Hin | [Hin | [Hin | [Hin | [Hin | [Hin | [Hin | []]]]]]]]; try discriminate Hin.
      now injection Hin.
    + now exists [stepCreateInstance; stepWaitforInstance; stepGrabPublicIP;
                  StepConnect (Comm (config self)) winRMCommHost None (Some winRMConfig);
                  stepWaitforInstance].
    + exists [], [stepGrabPublicIP;
                  StepConnect (Comm (config self)) winRMCommHost None (Some winRMConfig);
                  stepWaitforInstance; StepProvision; stepCaptureImage].
      split; [reflexivity | intros []].
  - repeat split; try discriminate; try congruence.
    + intros [? ?]; congruence.
    + intros _. cbn. now left.
    + intros key. cbn. intros [Hin | [Hin | [Hin | [Hin | [Hin | [Hin | [Hin | []]]]]]]]; try discriminate Hin.
      now injection Hin.
    + intros comm host ssh winrm. cbn.
      intros [Hin | [Hin | [Hin | [Hin | [Hin | [Hin | [Hin | []]]]]]]]; try discriminate Hin.
      now injection Hin.
    + now exists [stepCreateSshKey (communicator.SSHPrivateKey (Comm (config self)));
                  stepCreateInstance; stepWaitforInstance; stepGrabPublicIP;
                  StepConnect (Comm (config self)) sshCommHost (Some sshConfig) None].
    + exists [stepCreateSshKey (communicator.SSHPrivateKey (Comm (config self)))],
        [stepGrabPublicIP;
         StepConnect (Comm (config self)) sshCommHost (Some sshConfig) None;
         StepProvision; stepCaptureImage].
      split; [reflexivity |].
      cbn. intros [Hin | []]; discriminate Hin.
  - repeat split; try congruence; try (intros []); try (intros ? []);
      try (intros ? ? ? ? []).
    all: try (intros Hsteps; now destruct Hsteps).
Qed.

(** A [winrm] build. *)
Lemma Run_step_sequences_share_a_shape_witness :
  length (stepsOf (Run idleRunner {| config := exampleConfig "winrm" 0 0 0 ""; runner := None |}
                     multistep.Background exampleUi exampleHook)) = 7%nat.
Proof.
  destruct (Run_step_sequences_share_a_shape idleRunner
              {| config := exampleConfig "winrm" 0 0 0 ""; runner := None |}
              multistep.Background exampleUi exampleHook) as (_ & _ & _ & _ & Hshape).
  destruct Hshape as (Hlength & _); [discriminate | exact Hlength].
Defined.

(** ** [Prepare]: the default name of the instance *)

Lemma fmt_d_inj (n m : Z) : fmt_d n = fmt_d m -> n = m.
Proof.
  unfold fmt_d. intros Heq.
  assert (Hparse : forall z, NilZero.int_of_string (NilZero.string_of_int (Z.to_int z))
                             = Some (Z.to_int z)).
  { intros z. apply NilZero.isi.
    - destruct z as [|p|p]; cbn; try discriminate.
      intros [= Hnil]. now apply Unsigned.to_uint_nonnil in Hnil.
    - destruct z as [|p|p]; cbn; try discriminate.
      intros [= Hnil]. now apply Unsigned.to_uint_nonnil in Hnil. }
  assert (Hint : Some (Z.to_int n) = Some (Z.to_int m))
    by (now rewrite <- !Hparse, Heq).
  injection Hint as Hint.
  now rewrite <- (DecimalZ.of_to n), <- (DecimalZ.of_to m), Hint.
Qed.

Lemma append_length (a b : string) :
  String.length (a +:+ b) = (String.length a + String.length b)%nat.
Proof. induction a as [|x a IH]; [reflexivity | rewrite append_cons; cbn; now rewrite IH]. Qed.

Lemma append_inj_l (a b s : string) : a +:+ s = b +:+ s -> a = b.
Proof.
  revert b. induction a as [|x a IH]; intros [|y b] Heq.
  - reflexivity.
  - apply (f_equal String.length) in Heq. rewrite !append_length in Heq. cbn in Heq. lia.
  - apply (f_equal String.length) in Heq. rewrite !append_length in Heq. cbn in Heq. lia.
  - rewrite !append_cons in Heq. injection Heq as -> Heq. f_equal. now apply IH.
Qed.

Lemma append_inj_r (s a b : string) : s +:+ a = s +:+ b -> a = b.
Proof.
  induction s as [|x s IH]; [trivial |].
  rewrite !append_cons. intros [= Heq]. now apply IH.
Qed.

(** X17. A template that names no instance gets a name made of the time of
    the clock, so that two builds prepared at different times get different
    names.  The name is not the plain [packer-ibmcloud-<seconds>]: the
    seconds, an [int64], are printed with the verb [%s]. *)
Theorem Prepare_names_the_instance_after_the_clock
    (E1 E2 : Env) (self1 self2 : Builder) (raws1 : list (Raw E1)) (raws2 : list (Raw E2))
    (c1 c2 : Config) :
  config_Decode E1 (config self1) raws1 = (c1, None) ->
  config_Decode E2 (config self2) raws2 = (c2, None) ->
  InstanceName c1 = "" -> InstanceName c2 = "" ->
  InstanceName (config (fst (Prepare E1 self1 raws1)))
  = "packer-ibmcloud-%!s(int64=" +:+ fmt_d (time_Now_Unix E1) +:+ ")"
  /\ (InstanceName (config (fst (Prepare E1 self1 raws1)))
      = InstanceName (config (fst (Prepare E2 self2 raws2))) ->
      time_Now_Unix E1 = time_Now_Unix E2).
Proof.
  intros Hdecode1 Hdecode2 Hname1 Hname2.
  assert (Hname : forall E self raws c,
            config_Decode E (config self) raws = (c, None) -> InstanceName c = "" ->
            InstanceName (config (fst (Prepare E self raws)))
            = "packer-ibmcloud-%!s(int64=" +:+ fmt_d (time_Now_Unix E) +:+ ")").
  { intros E self raws c Hdecode Hempty.
    rewrite (Prepare_decoded E self raws c Hdecode). cbn [fst config].
    rewrite checkConfig_config.
    generalize (fst (Comm_Prepare E (Comm (assignDefaults E c)))) as comm. intros comm.
    generalize (fst (time_ParseDuration E (RawStateTimeout (assignDefaults E c)))) as d.
    intros d. rewrite (assignDefaults_eq E c). config_fields. now rewrite Hempty. }
  split; [exact (Hname E1 self1 raws1 c1 Hdecode1 Hname1) |].
  rewrite (Hname E1 self1 raws1 c1 Hdecode1 Hname1),
    (Hname E2 self2 raws2 c2 Hdecode2 Hname2).
  intros Heq. apply append_inj_r, append_inj_l in Heq. now apply fmt_d_inj.
Qed.

(** Two builds a second apart. *)
Lemma Prepare_names_the_instance_after_the_clock_witness :
  InstanceName (config (fst (Prepare (exampleEnvAt 1700000000) newBuilder [emptyConfig])))
  = "packer-ibmcloud-%!s(int64=1700000000)"
  /\ InstanceName (config (fst (Prepare (exampleEnvAt 1700000001) newBuilder [emptyConfig])))
     = "packer-ibmcloud-%!s(int64=1700000001)"
  /\ time_Now_Unix (exampleEnvAt 1700000000) = time_Now_Unix (exampleEnvAt 1700000000).
Proof.
  split; [| split].
  3: { destruct (Prepare_names_the_instance_after_the_clock
                   (exampleEnvAt 1700000000) (exampleEnvAt 1700000000) newBuilder newBuilder
                   [emptyConfig] [emptyConfig] emptyConfig emptyConfig
                   eq_refl eq_refl eq_refl eq_refl) as (_ & Hclock).
       apply Hclock. reflexivity. }
  - destruct (Prepare_names_the_instance_after_the_clock
                (exampleEnvAt 1700000000) (exampleEnvAt 1700000001) newBuilder newBuilder
                [emptyConfig] [emptyConfig] emptyConfig emptyConfig
                eq_refl eq_refl eq_refl eq_refl) as (Hname & _).
    rewrite Hname. vm_compute. reflexivity.
  - destruct (Prepare_names_the_instance_after_the_clock
                (exampleEnvAt 1700000001) (exampleEnvAt 1700000000) newBuilder newBuilder
                [emptyConfig] [emptyConfig] emptyConfig emptyConfig
                eq_refl eq_refl eq_refl eq_refl) as (Hname & _).
    rewrite Hname. vm_compute. reflexivity.
Defined.
